(** * Host side of the L2 reflector: [src/host/l2_reflector.c]

    A shallow embedding of [signal_handler] and [main].  [main] talks to the
    outside world all the time (DOCA / FlexIO calls, the clock, signals), so
    it is modelled as a machine: one program point per statement group of the
    source, named after the line it starts at, and a step function that
    consumes what the outside world answers at that point.  Signals are
    inputs of their own and may arrive between any two steps.

    Not modelled: the text written by [DOCA_LOG_*] (the final report is kept
    as a value), and the bodies of the external functions. *)

From Stdlib Require Import ZArith List Bool Lia.
From Stdlib Require Import Floats.SpecFloat.
From stdpp Require Import base decidable option list.
Import ListNotations.

Local Open Scope Z_scope.

(* ------------------------------------------------------------------ *)
(** ** C integers and floats *)

Module CInt.

Definition UINT64_MOD : Z := 2 ^ 64.
Definition INT_MOD : Z := 2 ^ 32.
Definition INT_MAX : Z := 2 ^ 31 - 1.
Definition INT_MIN : Z := - 2 ^ 31.

(** [uint64_t] arithmetic wraps. *)
Definition wrap64 (x : Z) : Z := x mod UINT64_MOD.
Definition sub64 (x y : Z) : Z := wrap64 (x - y).

(** [int = uint64_t]: the value is reduced modulo 2^32 into the range of
    a 32-bit [int] (what gcc and clang do on every target of the SDK). *)
Definition int_of_uint64 (x : Z) : Z :=
  let y := x mod INT_MOD in
  if y <=? INT_MAX then y else y - INT_MOD.

(** [float] is IEEE binary32: 24 bits of precision, emax 128. *)
Definition prec32 : Z := 24.
Definition emax32 : Z := 128.

(** [(float) n] for a non-negative integer, rounding to nearest even. *)
Definition float_of_Z (n : Z) : spec_float :=
  binary_normalize prec32 emax32 n 0 false.

Definition fdiv (x y : spec_float) : spec_float := SFdiv prec32 emax32 x y.

End CInt.
Export CInt.

(* ------------------------------------------------------------------ *)
(** ** Constants of the source and of its headers *)

Definition SIMULATION_TIME : Z := 60.

Definition EXIT_SUCCESS : Z := 0.
Definition EXIT_FAILURE : Z := 1.

(** The two signals [main] installs a handler for, with their numbers. *)
Inductive signal : Type := SIGINT | SIGTERM.

Definition signum_of (sg : signal) : Z :=
  match sg with SIGINT => 2 | SIGTERM => 15 end.

#[global] Instance signal_eq_dec : EqDecision signal.
Proof. solve_decision. Defined.

(* ------------------------------------------------------------------ *)
(** ** [signal_handler] (lines 42-53) *)

(** The handler's only effect on the program is on [force_quit]; it is
    given the flag's value and returns the new one. *)
Definition signal_handler (signum : Z) (force_quit : bool) : bool :=
  if (signum =? signum_of SIGINT) || (signum =? signum_of SIGTERM)
  then true
  else force_quit.

(* ------------------------------------------------------------------ *)
(** ** The outside world *)

(** The functions [main] calls that the traces record. *)
Inductive extfn : Type :=
| doca_log_backend_create_standard
| doca_log_backend_create_with_file_sdk
| doca_log_backend_set_sdk_level
| doca_argp_init
| register_l2_reflector_params
| doca_argp_start
| l2_reflector_setup_ibv_device
| l2_reflector_setup_device
| l2_reflector_allocate_device_resources
| call_l2_reflector_device_init          (* flexio_process_call, line 136 *)
| l2_reflector_create_steering_rule_rx
| l2_reflector_create_steering_rule_tx
| flexio_event_handler_run
| call_get_processed_packets_num         (* flexio_process_call, line 179 *)
| sleep
| doca_argp_destroy
| l2_reflector_steering_rules_destroy
| l2_reflector_device_resources_destroy
| l2_reflector_device_destroy
| l2_reflector_ibv_device_destroy
| l2_reflector_destroy.

#[global] Instance extfn_eq_dec : EqDecision extfn.
Proof. solve_decision. Defined.

(** One entry per call, oldest first: the function and whether it reported
    success ([true] for the calls whose result [main] does not look at). *)
Definition trace : Type := list (extfn * bool).

(** What the outside world answers at a step.  Each program point reads
    the fields it needs: the status of the call made there, the value the
    counter read stores, what [time(NULL)] returns, and the [tm_sec] that
    [localtime] derives from it. *)
Record response : Type := Response {
  status_ok : bool;
  rpc_val : Z;
  clock : Z;
  tm_sec : Z
}.

Inductive input : Type :=
| Resp (r : response)     (* the program takes its next step *)
| Sig (sg : signal).      (* a signal is delivered *)

(* ------------------------------------------------------------------ *)
(** ** Program points and state of [main] *)

Inductive pc : Type :=
| L79    (* force_quit = false; memset *)
| L83    (* doca_log_backend_create_standard *)
| L88    (* doca_log_backend_create_with_file_sdk *)
| L91    (* doca_log_backend_set_sdk_level *)
| L96    (* doca_argp_init *)
| L102   (* register_l2_reflector_params *)
| L109   (* doca_argp_start *)
| L118   (* l2_reflector_setup_ibv_device *)
| L126   (* l2_reflector_setup_device *)
| L131   (* l2_reflector_allocate_device_resources *)
| L136   (* flexio_process_call l2_reflector_device_init *)
| L145   (* l2_reflector_create_steering_rule_rx *)
| L152   (* l2_reflector_create_steering_rule_tx *)
| L159   (* flexio_event_handler_run *)
| L166   (* signal(SIGINT, signal_handler) *)
| L167   (* signal(SIGTERM, signal_handler) *)
| L173   (* start_time = time(NULL) *)
| L177   (* outer while condition *)
| L179   (* flexio_process_call get_processed_packets_num *)
| L186   (* inner while condition *)
| L188   (* sleep(2) and the log line *)
| L193   (* bucket update, lines 193-201 *)
| L204   (* report, l2_reflector_destroy, return EXIT_SUCCESS *)
| Exited (code : Z)
| Killed (sg : signal)   (* default disposition of SIGINT / SIGTERM *)
| Fault.                 (* a store outside packets_per_second *)

#[global] Instance pc_eq_dec : EqDecision pc.
Proof. solve_decision. Defined.

(** The final report of lines 204-213. *)
Record report : Type := Report {
  total : Z;
  average : spec_float;
  per_second : list (Z * Z)     (* the "Second i: n" lines, in order *)
}.

Record state : Type := State {
  at_pc : pc;
  force_quit : bool;
  on_sigint : bool;             (* handler installed for SIGINT *)
  on_sigterm : bool;            (* handler installed for SIGTERM *)
  ret_rpc_val : Z;
  last_rpc_val : Z;
  packets_per_second : list Z;
  current_second : Z;
  start_time : Z;
  calls : trace;
  output : option report
}.

Definition init : state :=
  {| at_pc := L79; force_quit := false; on_sigint := false; on_sigterm := false;
     ret_rpc_val := 0; last_rpc_val := 0;
     packets_per_second := repeat 0 (Z.to_nat SIMULATION_TIME);
     current_second := 0; start_time := 0; calls := []; output := None |}.

Definition goto (p : pc) (s : state) : state :=
  {| at_pc := p; force_quit := force_quit s; on_sigint := on_sigint s;
     on_sigterm := on_sigterm s; ret_rpc_val := ret_rpc_val s;
     last_rpc_val := last_rpc_val s; packets_per_second := packets_per_second s;
     current_second := current_second s; start_time := start_time s;
     calls := calls s; output := output s |}.

Definition set_force_quit (b : bool) (s : state) : state :=
  {| at_pc := at_pc s; force_quit := b; on_sigint := on_sigint s;
     on_sigterm := on_sigterm s; ret_rpc_val := ret_rpc_val s;
     last_rpc_val := last_rpc_val s; packets_per_second := packets_per_second s;
     current_second := current_second s; start_time := start_time s;
     calls := calls s; output := output s |}.

Definition install (sg : signal) (s : state) : state :=
  {| at_pc := at_pc s; force_quit := force_quit s;
     on_sigint := match sg with SIGINT => true | SIGTERM => on_sigint s end;
     on_sigterm := match sg with SIGTERM => true | SIGINT => on_sigterm s end;
     ret_rpc_val := ret_rpc_val s;
     last_rpc_val := last_rpc_val s; packets_per_second := packets_per_second s;
     current_second := current_second s; start_time := start_time s;
     calls := calls s; output := output s |}.

Definition set_ret_rpc_val (v : Z) (s : state) : state :=
  {| at_pc := at_pc s; force_quit := force_quit s; on_sigint := on_sigint s;
     on_sigterm := on_sigterm s; ret_rpc_val := v;
     last_rpc_val := last_rpc_val s; packets_per_second := packets_per_second s;
     current_second := current_second s; start_time := start_time s;
     calls := calls s; output := output s |}.

Definition set_start_time (t : Z) (s : state) : state :=
  {| at_pc := at_pc s; force_quit := force_quit s; on_sigint := on_sigint s;
     on_sigterm := on_sigterm s; ret_rpc_val := ret_rpc_val s;
     last_rpc_val := last_rpc_val s; packets_per_second := packets_per_second s;
     current_second := current_second s; start_time := t;
     calls := calls s; output := output s |}.

Definition set_buckets (cs : Z) (a : list Z) (last : Z) (s : state) : state :=
  {| at_pc := at_pc s; force_quit := force_quit s; on_sigint := on_sigint s;
     on_sigterm := on_sigterm s; ret_rpc_val := ret_rpc_val s;
     last_rpc_val := last; packets_per_second := a;
     current_second := cs; start_time := start_time s;
     calls := calls s; output := output s |}.

Definition set_output (o : report) (s : state) : state :=
  {| at_pc := at_pc s; force_quit := force_quit s; on_sigint := on_sigint s;
     on_sigterm := on_sigterm s; ret_rpc_val := ret_rpc_val s;
     last_rpc_val := last_rpc_val s; packets_per_second := packets_per_second s;
     current_second := current_second s; start_time := start_time s;
     calls := calls s; output := Some o |}.

(** Record one call, or a run of calls whose result is not looked at. *)
Definition called (f : extfn) (ok : bool) (s : state) : state :=
  {| at_pc := at_pc s; force_quit := force_quit s; on_sigint := on_sigint s;
     on_sigterm := on_sigterm s; ret_rpc_val := ret_rpc_val s;
     last_rpc_val := last_rpc_val s; packets_per_second := packets_per_second s;
     current_second := current_second s; start_time := start_time s;
     calls := calls s ++ [(f, ok)]; output := output s |}.

Definition called_all (fs : list extfn) (s : state) : state :=
  fold_left (fun acc f => called f true acc) fs s.

(* ------------------------------------------------------------------ *)
(** ** The cleanup labels (lines 218-227) *)

Inductive label : Type :=
| rule_cleanup | device_resources_cleanup | device_cleanup | ibv_device_cleanup.

(** Control falls through from each label into the next. *)
Definition cleanup (l : label) : list extfn :=
  let at_ibv_device := [l2_reflector_ibv_device_destroy; doca_argp_destroy] in
  let at_device := l2_reflector_device_destroy :: at_ibv_device in
  let at_device_resources := l2_reflector_device_resources_destroy :: at_device in
  let at_rule := l2_reflector_steering_rules_destroy :: at_device_resources in
  match l with
  | rule_cleanup => at_rule
  | device_resources_cleanup => at_device_resources
  | device_cleanup => at_device
  | ibv_device_cleanup => at_ibv_device
  end.

(** [result = f(...); if (result != SUCCESS) { unwind; return EXIT_FAILURE; }]

    The failing call, the destroy calls of the unwinding and the return are
    one step of the machine: no signal is delivered between two destroy
    calls.  What the file proves of executions that end by a signal
    therefore says nothing of a signal that arrives while [main] unwinds. *)
Definition fallible (f : extfn) (r : response) (next : pc)
    (unwind : list extfn) (s : state) : state :=
  let s1 := called f (status_ok r) s in
  if status_ok r then goto next s1
  else goto (Exited EXIT_FAILURE) (called_all unwind s1).

(* ------------------------------------------------------------------ *)
(** ** The telemetry loop (lines 177-202) *)

(** [!force_quit && difftime(time(NULL), start_time) < SIMULATION_TIME].
    [difftime] is exact on the clock values a run can see. *)
Definition outer_guard (r : response) (s : state) : bool :=
  negb (force_quit s) && (clock r - start_time s <? SIMULATION_TIME).

(** [!force_quit && last_rpc_val == ret_rpc_val] *)
Definition inner_guard (s : state) : bool :=
  negb (force_quit s) && (last_rpc_val s =? ret_rpc_val s).

(** [a[i] = v] on an array: outside the array the store is a fault. *)
Definition store (i v : Z) (a : list Z) : option (list Z) :=
  if (0 <=? i) && (i <? Z.of_nat (length a))
  then Some (<[Z.to_nat i := v]> a)
  else None.

(** Lines 193-201, given the [tm_sec] of line 194. *)
Definition bucket_update (new_second : Z) (s : state) : option state :=
  let changed := negb (new_second =? current_second s) in
  let cs := if changed then new_second else current_second s in
  match (if changed then store cs 0 (packets_per_second s)
         else Some (packets_per_second s)) with
  | None => None
  | Some a0 =>
      match store cs (int_of_uint64 (sub64 (ret_rpc_val s) (last_rpc_val s))) a0 with
      | None => None
      | Some a1 => Some (set_buckets cs a1 (ret_rpc_val s) s)
      end
  end.

(** Lines 204-213: the total, the average as a [float], and one line per
    [i] with [0 <= i < current_second]. *)
Definition final_report (s : state) : report :=
  {| total := ret_rpc_val s;
     average := fdiv (float_of_Z (ret_rpc_val s)) (float_of_Z SIMULATION_TIME);
     per_second :=
       map (fun i => (Z.of_nat i, nth i (packets_per_second s) 0))
           (seq 0 (Z.to_nat (current_second s))) |}.

(* ------------------------------------------------------------------ *)
(** ** One step of [main] *)

Definition advance (r : response) (s : state) : state :=
  match at_pc s with
  | L79 => goto L83 (set_force_quit false s)
  | L83 => fallible doca_log_backend_create_standard r L88 [] s
  | L88 => fallible doca_log_backend_create_with_file_sdk r L91 [] s
  | L91 => fallible doca_log_backend_set_sdk_level r L96 [] s
  | L96 => fallible doca_argp_init r L102 [] s
  | L102 => fallible register_l2_reflector_params r L109 [doca_argp_destroy] s
  | L109 => fallible doca_argp_start r L118 [doca_argp_destroy] s
  | L118 => fallible l2_reflector_setup_ibv_device r L126 [doca_argp_destroy] s
  | L126 => fallible l2_reflector_setup_device r L131 (cleanup ibv_device_cleanup) s
  | L131 => fallible l2_reflector_allocate_device_resources r L136
              (cleanup device_cleanup) s
  | L136 => fallible call_l2_reflector_device_init r L145
              (cleanup device_resources_cleanup) s
  | L145 => fallible l2_reflector_create_steering_rule_rx r L152
              (cleanup device_resources_cleanup) s
  | L152 => fallible l2_reflector_create_steering_rule_tx r L159
              (cleanup rule_cleanup) s
  | L159 => fallible flexio_event_handler_run r L166 (cleanup rule_cleanup) s
  | L166 => goto L167 (install SIGINT s)
  | L167 => goto L173 (install SIGTERM s)
  | L173 => goto L177 (set_start_time (clock r) s)
  | L177 => if outer_guard r s then goto L179 s else goto L204 s
  | L179 =>
      fallible call_get_processed_packets_num r L186 (cleanup rule_cleanup)
        (if status_ok r then set_ret_rpc_val (wrap64 (rpc_val r)) s else s)
  | L186 => if inner_guard s then goto L188 s else goto L193 s
  | L188 => goto L186 (called sleep true s)
  | L193 =>
      match bucket_update (tm_sec r) s with
      | Some s' => goto L177 s'
      | None => goto Fault s
      end
  | L204 =>
      goto (Exited EXIT_SUCCESS)
        (called l2_reflector_destroy true (set_output (final_report s) s))
  | Exited _ | Killed _ | Fault => s
  end.

(** Is the handler installed for this signal? *)
Definition handled (sg : signal) (s : state) : bool :=
  match sg with SIGINT => on_sigint s | SIGTERM => on_sigterm s end.

Definition running (s : state) : bool :=
  match at_pc s with Exited _ | Killed _ | Fault => false | _ => true end.

(** Delivery of a signal to the running process: the handler if [signal]
    installed it, else the default disposition, which ends the process at
    once.  A process that has ended receives nothing. *)
Definition deliver (sg : signal) (s : state) : state :=
  if running s then
    if handled sg s
    then set_force_quit (signal_handler (signum_of sg) (force_quit s)) s
    else goto (Killed sg) s
  else s.

Definition step (s : state) (i : input) : state :=
  match i with
  | Resp r => advance r s
  | Sig sg => deliver sg s
  end.

Definition run (s : state) (ins : list input) : state := fold_left step ins s.

(* ------------------------------------------------------------------ *)
(** ** Resource domains, acquisition and release *)

(** The four resource domains, in acquisition order. *)
Inductive domain : Type :=
| NetworkBinding | DeviceRuntime | DeviceResources | SteeringRules.

#[global] Instance domain_eq_dec : EqDecision domain.
Proof. solve_decision. Defined.

Definition all_domains : list domain :=
  [NetworkBinding; DeviceRuntime; DeviceResources; SteeringRules].

(** The calls of [main] that make up the acquisition of a domain, in the
    order [main] makes them. *)
Definition acquisition_steps (d : domain) : list extfn :=
  match d with
  | NetworkBinding => [l2_reflector_setup_ibv_device]
  | DeviceRuntime => [l2_reflector_setup_device]
  | DeviceResources =>
      [l2_reflector_allocate_device_resources; call_l2_reflector_device_init]
  | SteeringRules =>
      [l2_reflector_create_steering_rule_rx; l2_reflector_create_steering_rule_tx]
  end.

(** Modelled from the spec: the body of [l2_reflector_destroy], which is
    defined in l2_reflector_core.c and is not part of the source at hand.
    The teardown the spec describes releases every domain in strict reverse
    acquisition order. *)
Definition l2_reflector_destroy_releases : list domain :=
  [SteeringRules; DeviceResources; DeviceRuntime; NetworkBinding].

(** The domains a call releases. *)
Definition releases_of (f : extfn) : list domain :=
  match f with
  | l2_reflector_steering_rules_destroy => [SteeringRules]
  | l2_reflector_device_resources_destroy => [DeviceResources]
  | l2_reflector_device_destroy => [DeviceRuntime]
  | l2_reflector_ibv_device_destroy => [NetworkBinding]
  | l2_reflector_destroy => l2_reflector_destroy_releases
  | _ => []
  end.

(** The release calls of a trace, as domains, in the order they were made. *)
Definition released (tr : trace) : list domain :=
  flat_map (fun e => releases_of (fst e)) tr.

(** [f] was called and reported success. *)
Definition succeeded (f : extfn) (tr : trace) : bool :=
  existsb (fun e => bool_decide (fst e = f) && snd e) tr.

(** Some call failed. *)
Definition any_failed (tr : trace) : bool := existsb (fun e => negb (snd e)) tr.

(** The stage of [d] reported success: every step of it succeeded. *)
Definition stage_succeeded (tr : trace) (d : domain) : bool :=
  forallb (fun f => succeeded f tr) (acquisition_steps d).

(** [d] holds resources: some step of its acquisition succeeded. *)
Definition holds_resources (tr : trace) (d : domain) : bool :=
  existsb (fun f => succeeded f tr) (acquisition_steps d).

Definition acquired_stages (tr : trace) : list domain :=
  List.filter (stage_succeeded tr) all_domains.

Definition held_domains (tr : trace) : list domain :=
  List.filter (holds_resources tr) all_domains.

Definition count_calls (f : extfn) (tr : trace) : nat :=
  length (List.filter (fun e => bool_decide (fst e = f)) tr).

(* ------------------------------------------------------------------ *)
(** ** Scripted environments *)

Definition answer (ok : bool) : input := Resp (Response ok 0 0 0).

(** Inputs that take [main] from its entry to line 166: every call up to
    and including [flexio_event_handler_run] succeeds. *)
Definition startup_ok : list input := repeat (answer true) 14.

(** The same, with the [k]-th fallible call (from 0) failing. *)
Definition startup_failing (k : nat) : list input :=
  repeat (answer true) (S k) ++ [answer false].

(** Lines 166-173 with the clock at [t0]. *)
Definition arm (t0 : Z) : list input := repeat (Resp (Response true 0 t0 0)) 3.

(** A counter script sampled once per tick: the clock starts at 0 and
    advances by one at every step, [tm_sec] follows it, every call
    succeeds, and each counter read takes the next value of the script. *)
Fixpoint scripted (script : list Z) (tick : Z) (fuel : nat) (s : state)
    : state * list Z :=
  match fuel with
  | O => (s, script)
  | S fuel' =>
      let r := Response true (hd 0 script) tick (tick mod 60) in
      let rest := if bool_decide (at_pc s = L179) then tl script else script in
      scripted rest (tick + 1) fuel' (advance r s)
  end.

(** Inputs up to the first counter read: every call succeeds, the clock
    reads 0, and the counter read returns [v]. *)
Definition first_read (v : Z) : list input :=
  startup_ok ++ arm 0 ++ [answer true; Resp (Response true v 0 0)].

Definition sum_buckets (s : state) : Z := fold_right Z.add 0 (packets_per_second s).

(* ------------------------------------------------------------------ *)
(** ** Program points, measures and invariants used in the proofs *)

(** Program points at which neither handler is installed yet. *)
Definition before_handlers (p : pc) : bool :=
  match p with
  | L79 | L83 | L88 | L91 | L96 | L102 | L109 | L118 | L126 | L131 | L136
  | L145 | L152 | L159 | L166 => true
  | _ => false
  end.

(** Number of acquisition and launch calls that have succeeded when the
    program is at a point; [None] once it has ended. *)
Definition progress (p : pc) : option nat :=
  match p with
  | L79 | L83 | L88 | L91 | L96 | L102 | L109 | L118 => Some 0%nat
  | L126 => Some 1%nat
  | L131 => Some 2%nat
  | L136 => Some 3%nat
  | L145 => Some 4%nat
  | L152 => Some 5%nat
  | L159 => Some 6%nat
  | L166 | L167 | L173 | L177 | L179 | L186 | L188 | L193 | L204 => Some 7%nat
  | Exited _ | Killed _ | Fault => None
  end.

(** The acquisition calls of the four domains, then the launch. *)
Definition launch_calls : list extfn :=
  flat_map acquisition_steps all_domains ++ [flexio_event_handler_run].

Definition reached (tr : trace) : list bool :=
  map (fun f => succeeded f tr) launch_calls.

Definition first_n_true (k : nat) : list bool :=
  repeat true k ++ repeat false (7 - k).

(** Program points at which [main] calls a function and checks its status. *)
Definition checks_status (p : pc) : bool :=
  match p with
  | L83 | L88 | L91 | L96 | L102 | L109 | L118 | L126 | L131 | L136 | L145
  | L152 | L159 | L179 => true
  | _ => false
  end.

Definition in_loop (p : pc) : bool :=
  match p with L177 | L179 | L186 | L188 | L193 => true | _ => false end.

(** Program points of the loop and after it. *)
Definition from_loop (p : pc) : bool :=
  match p with
  | L177 | L179 | L186 | L188 | L193 | L204 | Exited _ | Killed _ | Fault => true
  | _ => false
  end.

(** With the flag set, the number of steps the program can still spend in
    the loop. *)
Definition steps_to_go (p : pc) : nat :=
  match p with
  | L179 | L188 => 4
  | L186 => 3
  | L193 => 2
  | L177 => 1
  | _ => 0
  end.

Definition is_resp (i : input) : bool :=
  match i with Resp _ => true | Sig _ => false end.

Definition num_resp (ins : list input) : nat := length (List.filter is_resp ins).

(** Calls to [f] made so far, plus the one the program is about to make at
    [at_f]. *)
Definition due (f : extfn) (at_f : pc) (s : state) : nat :=
  (count_calls f (calls s) + if bool_decide (at_pc s = at_f) then 1 else 0)%nat.

Definition winding_down (s : state) : Prop :=
  force_quit s = true /\ from_loop (at_pc s) = true.

(** The loop is left through its condition at the end of [pre]: the
    program is at line 177 and either the flag is set or the window has
    elapsed on the clock value [r] brings. *)
Definition leaves_loop (pre : list input) (r : response) : Prop :=
  at_pc (run init pre) = L177 /\
  (force_quit (run init pre) = true \/
   SIMULATION_TIME <= clock r - start_time (run init pre)).

Definition reporting (s : state) : Prop :=
  at_pc s = L204 \/ at_pc s = Exited EXIT_SUCCESS.

(** The program is in the inner wait with nothing to end it: the flag is
    clear and the counter read equals the last one seen.  Nothing in the
    wait reads the counter again. *)
Definition waiting (s : state) : Prop :=
  (at_pc s = L186 \/ at_pc s = L188) /\
  force_quit s = false /\ last_rpc_val s = ret_rpc_val s.

(** What holds of the state at every point of every execution: how far
    acquisition has got; that no handler is installed, and the flag is
    clear, before line 166; and, once [main] has returned, what it has
    released and why it returned. *)
Record main_inv (s : state) : Prop := MainInv {
  inv_progress :
    forall k, progress (at_pc s) = Some k ->
      reached (calls s) = first_n_true k /\
      released (calls s) = [] /\ any_failed (calls s) = false;
  inv_before :
    before_handlers (at_pc s) = true -> on_sigint s = false;
  inv_sigint_first :
    on_sigint s = false -> on_sigterm s = false /\ force_quit s = false;
  inv_after :
    before_handlers (at_pc s) = false -> running s = true -> on_sigint s = true;
  inv_installed :
    on_sigint s = true -> reached (calls s) = first_n_true 7;
  inv_exit :
    forall c, at_pc s = Exited c ->
      released (calls s) = rev (held_domains (calls s)) /\
      (exists k, held_domains (calls s) = take k all_domains) /\
      ((c = EXIT_SUCCESS /\ any_failed (calls s) = false /\
        reached (calls s) = first_n_true 7) \/
       (c = EXIT_FAILURE /\ any_failed (calls s) = true))
}.

(* ------------------------------------------------------------------ *)
(** ** The startup sequence *)

(** The calls of lines 83-159 whose status [main] checks, in program order. *)
Definition startup_fns : list extfn :=
  [doca_log_backend_create_standard; doca_log_backend_create_with_file_sdk;
   doca_log_backend_set_sdk_level; doca_argp_init; register_l2_reflector_params;
   doca_argp_start; l2_reflector_setup_ibv_device; l2_reflector_setup_device;
   l2_reflector_allocate_device_resources; call_l2_reflector_device_init;
   l2_reflector_create_steering_rule_rx; l2_reflector_create_steering_rule_tx;
   flexio_event_handler_run].

Definition is_startup (f : extfn) : bool :=
  existsb (fun g => bool_decide (g = f)) startup_fns.

(** The startup calls of a trace, in the order they were made. *)
Definition startup_part (tr : trace) : trace :=
  List.filter (fun e => is_startup (fst e)) tr.

(** The first [k] startup functions called once each with success,
    followed, if [failed], by one failed call of the next. *)
Definition attempts (k : nat) (failed : bool) : trace :=
  map (fun f => (f, true)) (take k startup_fns) ++
  (if failed
   then match startup_fns !! k with Some f => [(f, false)] | None => [] end
   else []).

(** Number of startup calls made when the program is at a point. *)
Definition startup_count (p : pc) : option nat :=
  match p with
  | L79 | L83 => Some 0%nat
  | L88 => Some 1%nat
  | L91 => Some 2%nat
  | L96 => Some 3%nat
  | L102 => Some 4%nat
  | L109 => Some 5%nat
  | L118 => Some 6%nat
  | L126 => Some 7%nat
  | L131 => Some 8%nat
  | L136 => Some 9%nat
  | L145 => Some 10%nat
  | L152 => Some 11%nat
  | L159 => Some 12%nat
  | L166 | L167 | L173 | L177 | L179 | L186 | L188 | L193 | L204 => Some 13%nat
  | Exited _ | Killed _ | Fault => None
  end.

(** The startup calls made so far are the ones the program point tells;
    once the program has ended, they are some such sequence, and all
    thirteen, none failed, if [main] returned [EXIT_SUCCESS]. *)
Definition startup_inv (s : state) : Prop :=
  match startup_count (at_pc s) with
  | Some k => startup_part (calls s) = attempts k false
  | None =>
      exists k failed,
        startup_part (calls s) = attempts k failed /\
        (at_pc s = Exited EXIT_SUCCESS -> k = 13%nat /\ failed = false)
  end.

(** In the step machine: how often [doca_argp_destroy] has been called, by
    how [main] ended; and whether [doca_argp_init] has succeeded, by program
    point. *)
Definition argp_inv (s : state) : Prop :=
  count_calls doca_argp_destroy (calls s) =
    (if bool_decide (at_pc s = Exited EXIT_FAILURE) &&
        succeeded doca_argp_init (calls s)
     then 1 else 0)%nat /\
  match startup_count (at_pc s) with
  | Some k => succeeded doca_argp_init (calls s) = (4 <=? k)%nat
  | None => True
  end.

(** Program points of a running [main] at which SIGTERM is handled: past
    line 167. *)
Definition sigterm_handled_at (p : pc) : bool :=
  match p with
  | L173 | L177 | L179 | L186 | L188 | L193 | L204 => true
  | _ => false
  end.

Definition sigterm_inv (s : state) : Prop :=
  running s = true -> on_sigterm s = sigterm_handled_at (at_pc s).

(** With the flag set and both handlers installed, the number of steps
    the program still takes before [main] returns. *)
Definition steps_to_return (p : pc) : nat :=
  match p with
  | L179 | L188 => 5
  | L186 => 4
  | L173 | L193 => 3
  | L177 => 2
  | L204 => 1
  | _ => 0
  end.

(** A cancellation is under way: the flag is set, both handlers are
    installed, and the program is past line 167 or has returned
    [EXIT_SUCCESS]. *)
Definition cancelling (s : state) : Prop :=
  force_quit s = true /\ on_sigint s = true /\ on_sigterm s = true /\
  length (packets_per_second s) = Z.to_nat SIMULATION_TIME /\
  (sigterm_handled_at (at_pc s) = true \/ at_pc s = Exited EXIT_SUCCESS).

(* ================================================================== *)
(** * Properties *)

(** ** Runs *)

Lemma run_app s a b : run s (a ++ b) = run (run s a) b.
Proof. apply fold_left_app. Qed.

Lemma run_snoc s a i : run s (a ++ [i]) = step (run s a) i.
Proof. rewrite run_app. reflexivity. Qed.

Lemma run_cons s i a : run s (i :: a) = run (step s i) a.
Proof. reflexivity. Qed.

(** A property of the initial state that every step keeps holds after
    every run from the initial state. *)
Lemma run_invariant (P : state -> Prop) :
  P init -> (forall s i, P s -> P (step s i)) -> forall ins, P (run init ins).
Proof.
  intros H0 Hstep ins. induction ins as [|i ins IH] using rev_ind.
  - exact H0.
  - rewrite run_snoc. apply Hstep, IH.
Qed.

(** The same from any state. *)
Lemma run_preserves (P : state -> Prop) :
  (forall s i, P s -> P (step s i)) -> forall ins s, P s -> P (run s ins).
Proof.
  intros Hstep ins. induction ins as [|i ins IH]; intros s Hs.
  - exact Hs.
  - rewrite run_cons. apply IH, Hstep, Hs.
Qed.

(** A process that has ended does not move. *)
Lemma ended_step s i : running s = false -> step s i = s.
Proof.
  destruct s as [p fq oi ot rv lv pk cs st tr out], i as [r|sg];
    destruct p; cbn; intros H; try discriminate H; reflexivity.
Qed.

Lemma ended_run ins : forall s, running s = false -> run s ins = s.
Proof.
  induction ins as [|i ins IH]; intros s H; [reflexivity|].
  rewrite run_cons, ended_step by exact H. apply IH, H.
Qed.

(** ** Traces *)

Lemma released_app a b : released (a ++ b) = released a ++ released b.
Proof. apply flat_map_app. Qed.

Lemma succeeded_app f a b : succeeded f (a ++ b) = succeeded f a || succeeded f b.
Proof. apply existsb_app. Qed.

Lemma any_failed_app a b : any_failed (a ++ b) = any_failed a || any_failed b.
Proof. apply existsb_app. Qed.

Lemma count_calls_app f a b :
  count_calls f (a ++ b) = (count_calls f a + count_calls f b)%nat.
Proof. unfold count_calls. rewrite List.filter_app, length_app. reflexivity. Qed.

(** ** The signal handler *)

Lemma signal_handler_sets sg fq : signal_handler (signum_of sg) fq = true.
Proof. destruct sg; reflexivity. Qed.

Lemma signal_handler_monotone signum fq :
  fq = true -> signal_handler signum fq = true.
Proof. intros ->. unfold signal_handler. destruct (_ || _); reflexivity. Qed.

Lemma signal_handler_idempotent signum fq :
  signal_handler signum (signal_handler signum fq) = signal_handler signum fq.
Proof. unfold signal_handler. destruct (_ || _); reflexivity. Qed.

(** ** The invariant of [main] *)

Lemma reached_unfold tr :
  reached tr =
  [succeeded l2_reflector_setup_ibv_device tr;
   succeeded l2_reflector_setup_device tr;
   succeeded l2_reflector_allocate_device_resources tr;
   succeeded call_l2_reflector_device_init tr;
   succeeded l2_reflector_create_steering_rule_rx tr;
   succeeded l2_reflector_create_steering_rule_tx tr;
   succeeded flexio_event_handler_run tr].
Proof. reflexivity. Qed.

Lemma held_domains_unfold tr :
  held_domains tr =
  List.filter (fun d =>
    match d with
    | NetworkBinding => succeeded l2_reflector_setup_ibv_device tr
    | DeviceRuntime => succeeded l2_reflector_setup_device tr
    | DeviceResources =>
        succeeded l2_reflector_allocate_device_resources tr ||
        succeeded call_l2_reflector_device_init tr
    | SteeringRules =>
        succeeded l2_reflector_create_steering_rule_rx tr ||
        succeeded l2_reflector_create_steering_rule_tx tr
    end) all_domains.
Proof.
  unfold held_domains, holds_resources. apply List.filter_ext.
  intros []; cbn; rewrite ?orb_false_r; reflexivity.
Qed.

(** Split the facts about a trace into facts about its calls. *)
Ltac open_trace :=
  rewrite ?held_domains_unfold, ?reached_unfold in *;
  rewrite ?released_app, ?any_failed_app, ?succeeded_app in *.

Ltac use_reached H :=
  rewrite reached_unfold in H; cbv [first_n_true repeat Nat.sub app] in H;
  injection H as ? ? ? ? ? ? ?.

Lemma take_all_domains (l : list domain) :
  l = [] \/ l = [NetworkBinding] \/ l = [NetworkBinding; DeviceRuntime] \/
  l = [NetworkBinding; DeviceRuntime; DeviceResources] \/ l = all_domains ->
  exists k, l = take k all_domains.
Proof.
  intros [->|[->|[->|[->| ->]]]];
    [exists 0%nat|exists 1%nat|exists 2%nat|exists 3%nat|exists 4%nat]; reflexivity.
Qed.

Lemma main_inv_init : main_inv init.
Proof.
  split; cbn; try discriminate; try tauto.
  intros k [= <-]. repeat split.
Qed.

(** The bucket update touches the three telemetry variables only. *)
Lemma bucket_update_frame sec s s' :
  bucket_update sec s = Some s' ->
  exists cs a, s' = set_buckets cs a (ret_rpc_val s) s.
Proof.
  unfold bucket_update. intros H.
  repeat match type of H with
         | match ?x with _ => _ end = _ => destruct x eqn:?; try discriminate H
         end;
    injection H as <-; eauto.
Qed.

#[local] Arguments reached : simpl never.
#[local] Arguments released : simpl never.
#[local] Arguments any_failed : simpl never.
#[local] Arguments succeeded : simpl never.
#[local] Arguments held_domains : simpl never.

Ltac close_trace :=
  open_trace;
  repeat match goal with H : succeeded _ _ = _ |- _ => rewrite H end;
  repeat match goal with H : released _ = _ |- _ => rewrite H end;
  repeat match goal with H : any_failed _ = _ |- _ => rewrite H end.

Lemma main_inv_deliver s sg : main_inv s -> main_inv (deliver sg s).
Proof.
  intros [Hp Hb Hf Ha Hi He]. unfold deliver.
  destruct (running s) eqn:Hrun; [|split; auto; congruence].
  destruct (handled sg s) eqn:Hh.
  - split; cbn; auto.
    intros Hoi. destruct sg; cbn in Hh; [congruence|].
    destruct (Hf Hoi). congruence.
  - split; cbn; auto; discriminate.
Qed.

Lemma main_inv_advance s r : main_inv s -> main_inv (advance r s).
Proof.
  intros [Hp Hb Hf Ha Hi He].
  destruct (decide (at_pc s = L193)) as [E|NE].
  { unfold advance. rewrite E.
    destruct (bucket_update _ _) as [s'|] eqn:Hu.
    - apply bucket_update_frame in Hu as (cs' & a' & ->).
      destruct s; cbn in *; subst; split; cbn; intros; try discriminate; auto.
    - destruct s; cbn in *; subst; split; cbn; intros; try discriminate; auto. }
  destruct s as [p fq oi ot rv lv pk cs st tr out], r as [ok v t sec].
  destruct p; cbn in *; try congruence.
  all: try (specialize (Hp _ eq_refl) as (Hr & Hrel & Hfail); use_reached Hr).
  all: try (split; assumption).
  all: try (destruct ok; cbn).
  all: try (destruct (outer_guard _ _)).
  all: try (destruct (inner_guard _)).
  all: split; cbn; intros; try discriminate; try tauto.
  all: try match goal with Hk : Some _ = Some _ |- _ => injection Hk as <- end.
  all: try match goal with Hk : Exited _ = Exited _ |- _ => injection Hk as <- end.
  all: try (specialize (Hb eq_refl); subst oi; try discriminate).
  all: try (specialize (Ha eq_refl eq_refl); subst oi; try discriminate).
  all: try (close_trace; repeat split; reflexivity).
  all: try (close_trace; split; [reflexivity|]; split;
            [apply take_all_domains; cbn; tauto|];
            first [right; split; reflexivity | left; repeat split; reflexivity]).
Qed.

Lemma main_inv_step s i : main_inv s -> main_inv (step s i).
Proof. destruct i; [apply main_inv_advance | apply main_inv_deliver]. Qed.

Lemma main_inv_run ins : main_inv (run init ins).
Proof. apply run_invariant; [apply main_inv_init | apply main_inv_step]. Qed.

(* ------------------------------------------------------------------ *)
(** ** Teardown *)

(** C1, as stated, fails.  When the TX steering rule cannot be created
    (line 152) stage 4 has failed, so the stages that reported success are
    1-3, yet [main] jumps to [rule_cleanup] and releases all four domains,
    because the RX rule of stage 4 is already installed.  Likewise a failed
    device-init call (line 136, part of stage 3) is followed by three
    releases, not two. *)
Lemma teardown_not_the_succeeded_stages :
  (let s := run init (startup_failing 11) in
   at_pc s = Exited EXIT_FAILURE /\
   acquired_stages (calls s) = [NetworkBinding; DeviceRuntime; DeviceResources] /\
   released (calls s) =
     [SteeringRules; DeviceResources; DeviceRuntime; NetworkBinding]) /\
  (let s := run init (startup_failing 9) in
   at_pc s = Exited EXIT_FAILURE /\
   acquired_stages (calls s) = [NetworkBinding; DeviceRuntime] /\
   released (calls s) = [DeviceResources; DeviceRuntime; NetworkBinding]) /\
  ~ (forall ins c, at_pc (run init ins) = Exited c ->
       released (calls (run init ins)) =
       rev (acquired_stages (calls (run init ins)))).
Proof.
  split; [|split]; [vm_compute; auto | vm_compute; auto |].
  intros H. specialize (H (startup_failing 11) EXIT_FAILURE eq_refl).
  vm_compute in H. discriminate H.
Qed.

(** C1, amended.  Whenever [main] returns - after a failed stage, a failed
    launch, a failed counter read, a cancellation or a full window - the
    domains it has released are exactly the domains that hold resources,
    those with at least one successful acquisition step; they are a prefix
    of the acquisition order and are released in the exact reverse of it.
    In particular, when the allocation of stage 3 fails after stages 1-2
    succeeded, [main] makes exactly two release calls, domain 2 then
    domain 1, and none for domains 3-4. *)
Theorem teardown_releases_held_prefix (ins : list input) :
  (forall c, at_pc (run init ins) = Exited c ->
     released (calls (run init ins)) = rev (held_domains (calls (run init ins))) /\
     exists k, held_domains (calls (run init ins)) = take k all_domains) /\
  (forall r, at_pc (run init ins) = L131 -> status_ok r = false ->
     at_pc (step (run init ins) (Resp r)) = Exited EXIT_FAILURE /\
     released (calls (step (run init ins) (Resp r))) =
       [DeviceRuntime; NetworkBinding]).
Proof.
  pose proof (main_inv_run ins) as [Hp _ _ _ _ He]. split.
  - intros c Hc. destruct (He c Hc) as (Hrel & Hpre & _). auto.
  - intros r Hpc Hr. destruct (Hp 2%nat) as (_ & Hrel & _);
      [rewrite Hpc; reflexivity|].
    destruct (run init ins) as [p fq oi ot rv lv pk cs st tr out]; cbn in *.
    subst p. destruct r as [ok v t sec]; cbn in Hr; subst ok. cbn.
    split; [reflexivity|].
    rewrite !released_app, Hrel. reflexivity.
Qed.

Lemma teardown_releases_held_prefix_witness :
  (released (calls (run init (startup_failing 11))) =
     rev (held_domains (calls (run init (startup_failing 11)))) /\
   exists k, held_domains (calls (run init (startup_failing 11))) =
             take k all_domains) /\
  (at_pc (step (run init (repeat (answer true) 9)) (answer false)) =
     Exited EXIT_FAILURE /\
   released (calls (step (run init (repeat (answer true) 9)) (answer false))) =
     [DeviceRuntime; NetworkBinding]).
Proof.
  split.
  - apply (proj1 (teardown_releases_held_prefix (startup_failing 11)) EXIT_FAILURE).
    reflexivity.
  - apply (proj2 (teardown_releases_held_prefix (repeat (answer true) 9))
             (Response false 0 0 0)); reflexivity.
Defined.

(* ------------------------------------------------------------------ *)
(** ** Exit codes *)

Lemma outer_guard_false r s :
  outer_guard r s = false <->
  force_quit s = true \/ SIMULATION_TIME <= clock r - start_time s.
Proof.
  unfold outer_guard. rewrite andb_false_iff, negb_false_iff, Z.ltb_ge. tauto.
Qed.

(** Line 204 is entered from the loop condition only. *)
Lemma reporting_step s i :
  reporting (step s i) ->
  reporting s \/ exists r, i = Resp r /\ at_pc s = L177 /\ outer_guard r s = false.
Proof.
  unfold reporting. destruct (decide (at_pc s = L193)) as [E|NE].
  { destruct i as [r|sg]; cbn.
    - unfold advance. rewrite E.
      destruct (bucket_update _ _); cbn; intros [H|H]; discriminate H.
    - unfold deliver. destruct (running s); [|rewrite E; auto].
      destruct (handled sg s); cbn; rewrite ?E; auto.
      intros [H|H]; discriminate H. }
  destruct s as [p fq oi ot rv lv pk cs st tr out], i as [[ok v t sec]|sg];
    destruct p; cbn in *; try congruence; try tauto.
  all: try (destruct ok; cbn; intros [H|H]; discriminate H).
  all: try (intros [H|H]; discriminate H).
  all: try (destruct sg, oi, ot; cbn; intros [H|H]; discriminate H).
  - destruct (outer_guard _ _) eqn:G; cbn; [intros [H|H]; discriminate H|].
    intros _. right. eexists. repeat split. exact G.
  - destruct (inner_guard _); cbn; intros [H|H]; discriminate H.
Qed.

Lemma reporting_split ins :
  reporting (run init ins) ->
  exists pre r post, ins = pre ++ Resp r :: post /\ leaves_loop pre r.
Proof.
  induction ins as [|i ins IH] using rev_ind.
  - intros [H|H]; discriminate H.
  - rewrite run_snoc. intros H. apply reporting_step in H as [H|(r & -> & Hpc & G)].
    + destruct (IH H) as (pre & r & post & -> & Hl).
      exists pre, r, (post ++ [i]). split; [|exact Hl].
      rewrite <- app_assoc. reflexivity.
    + exists ins, r, []. split; [reflexivity|]. split; [exact Hpc|].
      apply outer_guard_false, G.
Qed.

(** Once at line 204 the program can only return [EXIT_SUCCESS]. *)
Lemma reporting_stays ins : forall s,
  reporting s \/ (exists sg, at_pc s = Killed sg) ->
  reporting (run s ins) \/ (exists sg, at_pc (run s ins) = Killed sg).
Proof.
  apply (run_preserves (fun s => reporting s \/ exists sg, at_pc s = Killed sg)).
  unfold reporting. intros s i H.
  destruct s as [p fq oi ot rv lv pk cs st tr out], i as [r|sg]; cbn in *.
  - destruct H as [[->| ->]|[sg ->]]; cbn; eauto.
  - unfold deliver. destruct H as [[->| ->]|[sg' ->]]; cbn; eauto.
    destruct (handled _ _); cbn; eauto.
Qed.

(** Exit codes, by how the loop was left.  When [main] returns, the code
    is [EXIT_SUCCESS] or [EXIT_FAILURE]; it is [EXIT_SUCCESS] exactly when
    the telemetry loop was left through its condition, on a set flag or an elapsed window, which
    needs every acquisition stage and the launch to have succeeded; and it
    is [EXIT_FAILURE] exactly when one of the calls whose status [main]
    checks - an acquisition stage, the launch, a counter read - failed.
    Both outcomes are produced: a failing call makes [main] return
    [EXIT_FAILURE] in that very step, and leaving the loop makes it return
    [EXIT_SUCCESS] in the next one. *)
Theorem exit_code_cases (ins : list input) :
  (forall c, at_pc (run init ins) = Exited c ->
     (c = EXIT_SUCCESS \/ c = EXIT_FAILURE) /\
     (c = EXIT_SUCCESS <->
        exists pre r post, ins = pre ++ Resp r :: post /\ leaves_loop pre r) /\
     (c = EXIT_SUCCESS -> acquired_stages (calls (run init ins)) = all_domains) /\
     (c = EXIT_FAILURE <-> any_failed (calls (run init ins)) = true)) /\
  (forall r, checks_status (at_pc (run init ins)) = true -> status_ok r = false ->
     at_pc (step (run init ins) (Resp r)) = Exited EXIT_FAILURE) /\
  (forall r r', leaves_loop ins r ->
     at_pc (run (run init ins) [Resp r; Resp r']) = Exited EXIT_SUCCESS).
Proof.
  split; [|split].
  - intros c Hc. pose proof (main_inv_run ins) as [_ _ _ _ _ He].
    destruct (He c Hc) as (_ & _ & Hcode).
    assert (Hne : EXIT_SUCCESS <> EXIT_FAILURE) by discriminate.
    split; [tauto|]. split; [|split].
    + split.
      * intros ->. apply reporting_split. right. exact Hc.
      * intros (pre & r & post & -> & Hpc & Hg).
        rewrite run_app, run_cons in Hc.
        assert (Hrep : reporting (step (run init pre) (Resp r))).
        { left. cbn. unfold advance. rewrite Hpc.
          apply outer_guard_false in Hg. rewrite Hg. reflexivity. }
        destruct (reporting_stays post _ (or_introl Hrep)) as [[H|H]|[sg H]];
          congruence.
    + intros ->. destruct Hcode as [(_ & _ & Hr)|[E _]]; [|congruence].
      use_reached Hr. unfold acquired_stages, stage_succeeded. cbn.
      repeat match goal with H : succeeded _ _ = _ |- _ => rewrite H end.
      reflexivity.
    + destruct Hcode as [(-> & Hf & _)|[-> Hf]]; rewrite Hf; split; congruence.
  - intros [ok v t sec] Hp Hr. cbn in Hr. subst ok.
    destruct (run init ins) as [p fq oi ot rv lv pk cs st tr out].
    destruct p; try discriminate Hp; reflexivity.
  - intros r r' [Hpc Hg]. apply outer_guard_false in Hg.
    cbn. unfold advance at 2. rewrite Hpc, Hg. reflexivity.
Qed.

Lemma exit_code_cases_witness :
  ((EXIT_FAILURE = EXIT_SUCCESS \/ EXIT_FAILURE = EXIT_FAILURE) /\
   (EXIT_FAILURE = EXIT_SUCCESS <->
      exists pre r post,
        startup_failing 11 = pre ++ Resp r :: post /\ leaves_loop pre r) /\
   (EXIT_FAILURE = EXIT_SUCCESS ->
      acquired_stages (calls (run init (startup_failing 11))) = all_domains) /\
   (EXIT_FAILURE = EXIT_FAILURE <->
      any_failed (calls (run init (startup_failing 11))) = true)) /\
  at_pc (step (run init (first_read 7 ++ [answer true; Resp (Response true 0 5 5);
                                          answer true]))
              (answer false)) = Exited EXIT_FAILURE /\
  at_pc (run (run init (first_read 7 ++ [answer true; Resp (Response true 0 5 5)]))
             [Resp (Response true 0 60 0); answer true]) = Exited EXIT_SUCCESS.
Proof.
  split; [|split].
  - apply (proj1 (exit_code_cases (startup_failing 11)) EXIT_FAILURE). reflexivity.
  - apply (proj1 (proj2 (exit_code_cases _))); reflexivity.
  - apply (proj2 (proj2 (exit_code_cases _))). split; [reflexivity|].
    right. vm_compute. discriminate.
Defined.

(* ------------------------------------------------------------------ *)
(** ** The cancellation flag *)

Lemma reached_all tr f :
  reached tr = first_n_true 7 -> In f launch_calls -> succeeded f tr = true.
Proof.
  intros Hr Hin. use_reached Hr. cbn in Hin.
  repeat destruct Hin as [<-|Hin]; try assumption. destruct Hin.
Qed.

(** C10.  In every execution: a handler is installed only once every
    acquisition call, the device-init call and the launch of the event
    handler have succeeded and line 166 has run; hence [force_quit] is never
    set while [main] is still acquiring or launching; and a SIGINT or SIGTERM
    that arrives before line 166 has run ends the process at once by the
    default disposition, with no release call made then or later. *)
Theorem handlers_only_after_launch (ins : list input) :
  (on_sigint (run init ins) = true \/ on_sigterm (run init ins) = true ->
     before_handlers (at_pc (run init ins)) = false /\
     forall f, In f launch_calls -> succeeded f (calls (run init ins)) = true) /\
  (force_quit (run init ins) = true ->
     before_handlers (at_pc (run init ins)) = false /\
     on_sigint (run init ins) = true) /\
  (before_handlers (at_pc (run init ins)) = true ->
     force_quit (run init ins) = false /\
     forall sg rest,
       at_pc (run (run init ins) (Sig sg :: rest)) = Killed sg /\
       calls (run (run init ins) (Sig sg :: rest)) = calls (run init ins)).
Proof.
  pose proof (main_inv_run ins) as [_ Hb Hf _ Hi _].
  set (s := run init ins) in *.
  assert (Hoi : on_sigint s = true \/ on_sigterm s = true -> on_sigint s = true).
  { destruct (on_sigint s); [tauto|]. destruct (Hf eq_refl) as [-> _].
    intros [H|H]; discriminate H. }
  assert (Hnb : on_sigint s = true -> before_handlers (at_pc s) = false).
  { destruct (before_handlers (at_pc s)); [|reflexivity].
    rewrite Hb by reflexivity. discriminate. }
  split; [|split].
  - intros H. apply Hoi in H. split; [auto|].
    intros f. apply reached_all. auto.
  - intros Hfq. destruct (on_sigint s) eqn:E; [auto|].
    destruct (Hf eq_refl) as [_ Hfq']. congruence.
  - intros Hbefore. specialize (Hb Hbefore). destruct (Hf Hb) as [Hot Hfq].
    split; [exact Hfq|]. intros sg rest. rewrite run_cons.
    assert (Hk : step s (Sig sg) = goto (Killed sg) s).
    { cbn. unfold deliver.
      assert (running s = true) as ->
        by (unfold running; destruct (at_pc s);
            try discriminate Hbefore; reflexivity).
      assert (handled sg s = false) as -> by (destruct sg; cbn; congruence).
      reflexivity. }
    rewrite Hk, ended_run by reflexivity. split; reflexivity.
Qed.

Lemma handlers_only_after_launch_witness :
  (before_handlers (at_pc (run init (startup_ok ++ arm 0 ++ [Sig SIGTERM]))) = false /\
   on_sigint (run init (startup_ok ++ arm 0 ++ [Sig SIGTERM])) = true) /\
  (force_quit (run init (startup_failing 11)) = false \/
   at_pc (run (run init (repeat (answer true) 9)) [Sig SIGINT; answer true]) =
     Killed SIGINT).
Proof.
  split.
  - apply (proj1 (proj2 (handlers_only_after_launch
                           (startup_ok ++ arm 0 ++ [Sig SIGTERM])))).
    reflexivity.
  - right.
    apply (proj2 (proj2 (handlers_only_after_launch (repeat (answer true) 9)))).
    reflexivity.
Defined.

(** Past its first statement [main] never writes [false] to the flag. *)
Lemma flag_stays_set s i :
  force_quit s = true /\ at_pc s <> L79 ->
  force_quit (step s i) = true /\ at_pc (step s i) <> L79.
Proof.
  intros [Hfq Hpc]. destruct (decide (at_pc s = L193)) as [E|NE].
  { destruct i as [r|sg]; cbn.
    - unfold advance. rewrite E. destruct (bucket_update _ _) as [s'|] eqn:Hu.
      + apply bucket_update_frame in Hu as (cs' & a' & ->). cbn. auto.
      + cbn. auto.
    - unfold deliver. destruct (running s); [|auto].
      destruct (handled sg s); cbn; rewrite ?signal_handler_sets; auto. }
  destruct s as [p fq oi ot rv lv pk cs st tr out], i as [[ok v t sec]|sg];
    cbn in *; subst fq.
  - destruct p; cbn; try congruence; try (split; [reflexivity|discriminate]).
    all: try (destruct ok; cbn; (split; [reflexivity|discriminate])).
    all: try (destruct (outer_guard _ _); cbn; (split; [reflexivity|discriminate])).
    all: try (destruct (inner_guard _); cbn; (split; [reflexivity|discriminate])).
  - unfold deliver. destruct (running _); [|auto].
    destruct (handled _ _); cbn; rewrite ?signal_handler_sets; auto.
Qed.

(** C8.  The handler never clears the flag; delivering a signal a second
    time changes nothing, whichever of the two signals came first once both
    handlers are installed; and in every execution, once the flag is set it
    is set in every later state: no statement of [main] that can still run
    writes [false] to it. *)
Theorem cancellation_flag_monotone :
  (forall signum fq, fq = true -> signal_handler signum fq = true) /\
  (forall s sg, step (step s (Sig sg)) (Sig sg) = step s (Sig sg)) /\
  (forall s sg sg', handled sg s = true -> handled sg' s = true ->
     step (step s (Sig sg)) (Sig sg') = step s (Sig sg)) /\
  (forall ins more, force_quit (run init ins) = true ->
     force_quit (run (run init ins) more) = true).
Proof.
  split; [|split; [|split]].
  - apply signal_handler_monotone.
  - intros s sg. cbn. unfold deliver.
    destruct s as [p fq oi ot rv lv pk cs st tr out];
      destruct p, sg, oi, ot; reflexivity.
  - intros s sg sg'. cbn. unfold deliver.
    destruct s as [p fq oi ot rv lv pk cs st tr out];
      destruct p, sg, sg', oi, ot; cbn; intros; try discriminate; reflexivity.
  - intros ins more Hfq.
    pose proof (main_inv_run ins) as [_ Hb Hf _ _ _].
    refine (proj1 (run_preserves _ flag_stays_set more _ _)).
    split; [exact Hfq|]. intros E. rewrite E in Hb.
    destruct (Hf (Hb eq_refl)). congruence.
Qed.

Lemma cancellation_flag_monotone_witness :
  signal_handler 15 true = true /\
  step (step init (Sig SIGINT)) (Sig SIGINT) = step init (Sig SIGINT) /\
  force_quit
    (run (run init (startup_ok ++ arm 0 ++ [Sig SIGINT]))
         [Sig SIGTERM; answer true; answer true; Sig SIGINT]) = true.
Proof.
  destruct cancellation_flag_monotone as (H1 & H2 & _ & H4).
  split; [apply H1; reflexivity|]. split; [apply H2|].
  apply H4. reflexivity.
Defined.

(* ------------------------------------------------------------------ *)
(** ** Cancellation during the telemetry loop *)

Lemma count_calls_snoc f tr g b :
  count_calls f (tr ++ [(g, b)]) =
  (count_calls f tr + if bool_decide (g = f) then 1 else 0)%nat.
Proof.
  rewrite count_calls_app. unfold count_calls at 2. cbn.
  destruct (bool_decide (g = f)); reflexivity.
Qed.

#[local] Arguments count_calls : simpl never.

(** Settle the equality tests between constructors in the goal. *)
Ltac decide_all :=
  repeat first
    [ rewrite bool_decide_eq_true_2 by reflexivity
    | rewrite bool_decide_eq_false_2 by discriminate ].

Ltac count_up := rewrite ?count_calls_snoc; decide_all; repeat split; auto; lia.

Lemma guards_see_flag r s :
  force_quit s = true -> outer_guard r s = false /\ inner_guard s = false.
Proof. unfold outer_guard, inner_guard. intros ->. split; reflexivity. Qed.

Lemma winding_down_step s i :
  winding_down s ->
  winding_down (step s i) /\
  (steps_to_go (at_pc (step s i)) <=
     steps_to_go (at_pc s) - (if is_resp i then 1 else 0))%nat /\
  (due sleep L188 (step s i) <= due sleep L188 s)%nat /\
  (due call_get_processed_packets_num L179 (step s i) <=
     due call_get_processed_packets_num L179 s)%nat.
Proof.
  intros [Hfq Hpc]. unfold winding_down, due.
  destruct (decide (at_pc s = L193)) as [E|NE].
  { destruct i as [r|sg]; cbn.
    - unfold advance. rewrite E. destruct (bucket_update _ _) as [s'|] eqn:Hu.
      + apply bucket_update_frame in Hu as (cs' & a' & ->). cbn. count_up.
      + cbn. count_up.
    - unfold deliver.
      assert (running s = true) as -> by (unfold running; rewrite E; reflexivity).
      destruct (handled sg s); cbn; rewrite ?signal_handler_sets, ?E; cbn;
        count_up. }
  destruct s as [p fq oi ot rv lv pk cs st tr out], i as [[ok v t sec]|sg];
    cbn in *; subst fq.
  - destruct p; try discriminate Hpc; try congruence; destruct ok; cbn;
      count_up.
  - unfold deliver.
    destruct p; try discriminate Hpc; cbn;
      try (destruct sg, oi, ot; cbn); count_up.
Qed.

Lemma winding_down_run ins : forall s,
  winding_down s ->
  winding_down (run s ins) /\
  (steps_to_go (at_pc (run s ins)) <= steps_to_go (at_pc s) - num_resp ins)%nat /\
  (due sleep L188 (run s ins) <= due sleep L188 s)%nat /\
  (due call_get_processed_packets_num L179 (run s ins) <=
     due call_get_processed_packets_num L179 s)%nat.
Proof.
  induction ins as [|i ins IH]; intros s Hs.
  - cbn. repeat split; try apply Hs; lia.
  - rewrite run_cons.
    destruct (winding_down_step s i Hs) as (Hs' & Hgo & Hsl & Hrd).
    destruct (IH _ Hs') as (Hs'' & Hgo' & Hsl' & Hrd').
    split; [exact Hs''|].
    unfold num_resp in *. cbn [List.filter]. destruct (is_resp i); cbn [length];
      repeat split; lia.
Qed.

(** C7.  Both loop conditions read the flag, and they are false once it
    is set.  When a handled signal is delivered while the program is in the
    inner wait - about to test its condition or about to sleep - then,
    whatever happens next, at most one more [sleep] is called, the counter is
    not read again, and after four further steps of the program the loop has
    been left. *)
Theorem cancel_during_inner_wait (s : state) (sg : signal) :
  at_pc s = L186 \/ at_pc s = L188 ->
  handled sg s = true ->
  (forall r, outer_guard r (step s (Sig sg)) = false) /\
  inner_guard (step s (Sig sg)) = false /\
  forall ins,
    (count_calls sleep (calls (run s (Sig sg :: ins))) <=
       count_calls sleep (calls s) + 1)%nat /\
    (count_calls call_get_processed_packets_num (calls (run s (Sig sg :: ins))) <=
       count_calls call_get_processed_packets_num (calls s))%nat /\
    (4 <= num_resp ins -> in_loop (at_pc (run s (Sig sg :: ins))) = false)%nat.
Proof.
  intros Hpc Hh.
  assert (Hs' : step s (Sig sg) = set_force_quit true s).
  { cbn. unfold deliver.
    assert (running s = true) as ->
      by (unfold running; destruct Hpc as [-> | ->]; reflexivity).
    rewrite Hh, signal_handler_sets. reflexivity. }
  assert (Hw : winding_down (step s (Sig sg))).
  { rewrite Hs'. split; cbn; [reflexivity|].
    destruct Hpc as [-> | ->]; reflexivity. }
  split; [intros r; apply guards_see_flag, Hw|].
  split; [apply guards_see_flag, Hw; exact (Response true 0 0 0)|].
  intros ins. rewrite run_cons.
  destruct (winding_down_run ins _ Hw) as (_ & Hgo & Hsl & Hrd).
  unfold due in *. rewrite Hs' in *. cbn [calls at_pc set_force_quit] in *.
  assert (Hnot : bool_decide (at_pc s = L179) = false)
    by (destruct Hpc as [-> | ->]; reflexivity).
  rewrite Hnot in Hrd. clear Hnot.
  repeat split.
  - destruct (bool_decide (at_pc s = L188));
      destruct (bool_decide (_ = L188)); lia.
  - destruct (bool_decide (_ = L179)); lia.
  - intros Hn. clear Hsl Hrd.
    assert (Hz : steps_to_go (at_pc (run (set_force_quit true s) ins)) = 0%nat)
      by (destruct Hpc as [E|E]; rewrite E in Hgo; cbn in Hgo; lia).
    destruct (at_pc (run _ ins)); cbn in Hz; try discriminate Hz; reflexivity.
Qed.

Lemma cancel_during_inner_wait_witness :
  let s := run init (startup_ok ++ arm 0 ++ repeat (answer true) 3) in
  let ins := repeat (answer true) 4 in
  at_pc s = L188 /\
  (count_calls sleep (calls (run s (Sig SIGINT :: ins))) <=
     count_calls sleep (calls s) + 1)%nat /\
  (count_calls call_get_processed_packets_num (calls (run s (Sig SIGINT :: ins))) <=
     count_calls call_get_processed_packets_num (calls s))%nat /\
  in_loop (at_pc (run s (Sig SIGINT :: ins))) = false.
Proof.
  intros s ins. split; [reflexivity|].
  destruct (cancel_during_inner_wait s SIGINT) as (_ & _ & H);
    [right; reflexivity | reflexivity |].
  destruct (H ins) as (Hsl & Hrd & Hout).
  split; [exact Hsl|]. split; [exact Hrd|]. apply Hout. vm_compute. lia.
Defined.

(* ------------------------------------------------------------------ *)
(** ** The bucket update *)

Lemma int_of_uint64_sub64 a b :
  INT_MIN <= a - b <= INT_MAX -> int_of_uint64 (sub64 a b) = a - b.
Proof.
  unfold int_of_uint64, sub64, wrap64, INT_MIN, INT_MAX, INT_MOD, UINT64_MOD.
  intros H.
  rewrite Z.mod_mod_divide by (exists (2 ^ 32); reflexivity).
  change (2 ^ 32) with 4294967296 in *. change (2 ^ 31) with 2147483648 in *.
  destruct (Z_lt_le_dec (a - b) 0) as [Hneg|Hpos].
  - replace ((a - b) mod 4294967296) with (a - b + 4294967296).
    + destruct (Z.leb_spec (a - b + 4294967296) (2147483648 - 1)); lia.
    + apply (Z.mod_unique_pos _ _ (-1)); lia.
  - rewrite Z.mod_small by lia.
    destruct (Z.leb_spec (a - b) (2147483648 - 1)); lia.
Qed.

Lemma store_Some i v (a : list Z) :
  0 <= i < Z.of_nat (length a) -> store i v a = Some (<[Z.to_nat i := v]> a).
Proof.
  intros [H0 H1]. unfold store.
  apply Z.leb_le in H0. apply Z.ltb_lt in H1. rewrite H0, H1. reflexivity.
Qed.

Lemma store_None i v (a : list Z) :
  Z.of_nat (length a) <= i -> store i v a = None.
Proof.
  intros H. unfold store. apply Z.ltb_ge in H. rewrite H, andb_false_r.
  reflexivity.
Qed.

(** What lines 193-201 compute when the second is a valid index. *)
Lemma bucket_update_in_range sec s :
  0 <= sec < Z.of_nat (length (packets_per_second s)) ->
  exists a,
    bucket_update sec s = Some (set_buckets sec a (ret_rpc_val s) s) /\
    length a = length (packets_per_second s) /\
    a !! Z.to_nat sec =
      Some (int_of_uint64 (sub64 (ret_rpc_val s) (last_rpc_val s))) /\
    forall j, j <> Z.to_nat sec -> a !! j = packets_per_second s !! j.
Proof.
  intros Hsec. unfold bucket_update.
  destruct (Z.eqb_spec sec (current_second s)) as [<-|Hne]; cbn [negb].
  - rewrite store_Some by exact Hsec. eexists. split; [reflexivity|].
    rewrite length_insert. split; [reflexivity|]. split.
    + apply list_lookup_insert_eq. lia.
    + intros j Hj. apply list_lookup_insert_ne. congruence.
  - rewrite store_Some by exact Hsec.
    rewrite store_Some by (rewrite length_insert; exact Hsec).
    eexists. split; [reflexivity|].
    rewrite !length_insert. split; [reflexivity|]. split.
    + apply list_lookup_insert_eq. rewrite length_insert. lia.
    + intros j Hj. rewrite !list_lookup_insert_ne by congruence. reflexivity.
Qed.

Lemma store_length i v (a a' : list Z) :
  store i v a = Some a' -> length a' = length a.
Proof.
  unfold store. destruct (_ && _); [|discriminate].
  intros [= <-]. apply length_insert.
Qed.

Lemma bucket_update_length sec s s' :
  bucket_update sec s = Some s' ->
  length (packets_per_second s') = length (packets_per_second s).
Proof.
  unfold bucket_update. destruct (negb _).
  - destruct (store _ 0 _) as [a0|] eqn:E0; [|discriminate].
    destruct (store _ _ a0) as [a1|] eqn:E1; [|discriminate].
    intros [= <-]. cbn. apply store_length in E0, E1. congruence.
  - destruct (store _ _ _) as [a1|] eqn:E1; [|discriminate].
    intros [= <-]. cbn. apply store_length in E1. exact E1.
Qed.

(** In every execution the array keeps its [SIMULATION_TIME] slots. *)
Lemma buckets_length ins :
  length (packets_per_second (run init ins)) = Z.to_nat SIMULATION_TIME.
Proof.
  apply (run_invariant
           (fun s => length (packets_per_second s) = Z.to_nat SIMULATION_TIME));
    [reflexivity|].
  intros s i Hs. destruct (decide (at_pc s = L193)) as [E|NE].
  { destruct i as [r|sg]; cbn.
    - unfold advance. rewrite E. destruct (bucket_update _ _) as [s'|] eqn:Hu.
      + apply bucket_update_length in Hu. cbn. congruence.
      + exact Hs.
    - unfold deliver. destruct (running s), (handled sg s); exact Hs. }
  destruct s as [p fq oi ot rv lv pk cs st tr out], i as [[ok v t sec]|sg];
    cbn in *.
  - destruct p; try congruence; try exact Hs; try (destruct ok; exact Hs).
    + unfold advance. cbn [at_pc]. destruct (outer_guard _ _); exact Hs.
    + unfold advance. cbn [at_pc]. destruct (inner_guard _); exact Hs.
  - destruct p, sg, oi, ot; exact Hs.
Qed.

(** The bucket update when the delta fits the bucket.  With [tm_sec] a
    valid index and the delta in the range of [int]: the program goes back
    to the loop condition without a fault, [current_second] becomes the second of the minute just
    read, the bucket of that second holds exactly [ret_rpc_val - last_rpc_val]
    whatever it held before (so a second update in the same second replaces
    the first, and a bucket entered anew does not keep its old content),
    every other bucket is unchanged, and [last_rpc_val] becomes
    [ret_rpc_val]. *)
Theorem bucket_update_overwrites (s : state) (r : response) :
  at_pc s = L193 ->
  0 <= tm_sec r < Z.of_nat (length (packets_per_second s)) ->
  INT_MIN <= ret_rpc_val s - last_rpc_val s <= INT_MAX ->
  at_pc (advance r s) = L177 /\
  current_second (advance r s) = tm_sec r /\
  packets_per_second (advance r s) !! Z.to_nat (tm_sec r) =
    Some (ret_rpc_val s - last_rpc_val s) /\
  (forall j, j <> Z.to_nat (tm_sec r) ->
     packets_per_second (advance r s) !! j = packets_per_second s !! j) /\
  length (packets_per_second (advance r s)) = length (packets_per_second s) /\
  last_rpc_val (advance r s) = ret_rpc_val s /\
  ret_rpc_val (advance r s) = ret_rpc_val s.
Proof.
  intros Hpc Hsec Hdelta. unfold advance. rewrite Hpc.
  destruct (bucket_update_in_range (tm_sec r) s Hsec) as (a & -> & Hlen & Hat & Hothers).
  cbn. rewrite int_of_uint64_sub64 in Hat by exact Hdelta. auto 10.
Qed.

Lemma bucket_update_overwrites_witness :
  let s := run init (startup_ok ++ arm 0 ++
             [answer true; Resp (Response true 7 0 0); answer true;
              Resp (Response true 0 5 5);
              answer true; Resp (Response true 12 5 5); answer true]) in
  let r := Response true 0 5 5 in
  packets_per_second s !! 5%nat = Some 7 /\
  packets_per_second (advance r s) !! 5%nat = Some 5 /\
  last_rpc_val (advance r s) = 12.
Proof.
  intros s r. split; [reflexivity|].
  destruct (bucket_update_overwrites s r) as (_ & _ & Hat & _ & _ & Hlast & _);
    [reflexivity | vm_compute; split; [discriminate | reflexivity]
    | vm_compute; split; discriminate |].
  split; [exact Hat | exact Hlast].
Defined.

(** The [int] bucket cannot hold a delta of 2^31 or more: it goes negative. *)
Lemma bucket_negative_on_large_delta :
  let s := run init (startup_ok ++ arm 0 ++
             [answer true; Resp (Response true (2 ^ 31) 0 0); answer true;
              Resp (Response true 0 5 5)]) in
  at_pc s = L177 /\ last_rpc_val s = 2 ^ 31 /\
  packets_per_second s !! 5%nat = Some (- 2 ^ 31).
Proof. vm_compute. auto. Qed.

(** C9 fails on the code.  [localtime] may report [tm_sec = 60] on a leap
    second; the bucket update then stores at index 60 of an array of
    [SIMULATION_TIME] = 60 elements, one past its end. *)
Theorem leap_second_store_out_of_bounds (s : state) (r : response) :
  at_pc s = L193 ->
  length (packets_per_second s) = Z.to_nat SIMULATION_TIME ->
  tm_sec r = 60 ->
  bucket_update (tm_sec r) s = None /\ at_pc (advance r s) = Fault.
Proof.
  intros Hpc Hlen Hsec.
  assert (Hu : bucket_update (tm_sec r) s = None).
  { unfold bucket_update. rewrite Hsec.
    destruct (negb (60 =? current_second s)) eqn:Hch.
    - rewrite store_None; [reflexivity|]. rewrite Hlen. vm_compute. discriminate.
    - apply negb_false_iff, Z.eqb_eq in Hch. rewrite <- Hch.
      rewrite store_None; [reflexivity|]. rewrite Hlen. vm_compute. discriminate. }
  split; [exact Hu|]. unfold advance. rewrite Hpc, Hu. reflexivity.
Qed.

Lemma leap_second_store_out_of_bounds_witness :
  let s := run init (startup_ok ++ arm 0 ++
             [answer true; Resp (Response true 7 0 0); answer true]) in
  let r := Response true 0 0 60 in
  bucket_update (tm_sec r) s = None /\ at_pc (step s (Resp r)) = Fault.
Proof.
  intros s r. apply (leap_second_store_out_of_bounds s r); reflexivity.
Defined.

(* ------------------------------------------------------------------ *)
(** ** The inner wait *)

Lemma waiting_advance r s :
  waiting s ->
  waiting (advance r s) /\
  packets_per_second (advance r s) = packets_per_second s /\
  output (advance r s) = output s.
Proof.
  intros (Hpc & Hfq & Heq). unfold waiting, advance.
  destruct Hpc as [E|E]; rewrite E.
  - unfold inner_guard. rewrite Hfq, Heq, Z.eqb_refl. cbn. auto 10.
  - cbn. auto 10.
Qed.

(** Without a signal the inner wait is never left. *)
Lemma waiting_forever (rs : list response) : forall s,
  waiting s ->
  waiting (run s (map Resp rs)) /\
  packets_per_second (run s (map Resp rs)) = packets_per_second s /\
  output (run s (map Resp rs)) = output s.
Proof.
  induction rs as [|r rs IH]; intros s Hs; [auto|].
  cbn [map]. rewrite run_cons. cbn [step].
  destruct (waiting_advance r s Hs) as (Hs' & Hpk & Hout).
  destruct (IH _ Hs') as (Hs'' & Hpk' & Hout').
  split; [exact Hs''|]. split; congruence.
Qed.

(** C3 fails on the code.  After a first counter read of 0 - no packet
    processed yet - and with no signal ever delivered, the program stays in
    the inner wait whatever the clock says: it never reaches the report at
    line 204, however far past [SIMULATION_TIME] the clock has moved. *)
Theorem window_does_not_bound_inner_wait (rs : list response) :
  let s := run init (first_read 0 ++ map Resp rs) in
  (at_pc s = L186 \/ at_pc s = L188) /\ force_quit s = false /\ output s = None.
Proof.
  cbn zeta. rewrite run_app.
  destruct (waiting_forever rs (run init (first_read 0))) as ((Hpc & Hfq & _) & _ & Hout).
  - vm_compute. auto.
  - rewrite Hout. auto.
Qed.

(* ------------------------------------------------------------------ *)
(** ** Scripted counter sequences *)

Lemma scripted_add script tick a b s :
  scripted script tick (a + b) s =
  let '(s1, rest) := scripted script tick a s in
  scripted rest (tick + Z.of_nat a) b s1.
Proof.
  revert script tick s. induction a as [|a IH]; intros script tick s.
  - cbn. rewrite Z.add_0_r. reflexivity.
  - cbn [Nat.add scripted]. rewrite IH.
    destruct (scripted _ _ a _) as [s1 rest].
    replace (tick + 1 + Z.of_nat a) with (tick + Z.of_nat (S a)) by lia.
    reflexivity.
Qed.

Lemma scripted_waiting n : forall script tick s,
  waiting s ->
  waiting (fst (scripted script tick n s)) /\
  snd (scripted script tick n s) = script /\
  packets_per_second (fst (scripted script tick n s)) = packets_per_second s /\
  output (fst (scripted script tick n s)) = output s.
Proof.
  induction n as [|n IH]; intros script tick s Hs; [cbn; auto|].
  cbn [scripted].
  destruct (waiting_advance (Response true (hd 0 script) tick (tick mod 60)) s Hs)
    as (Hs' & Hpk & Hout).
  assert (bool_decide (at_pc s = L179) = false) as ->
    by (destruct Hs as [[-> | ->] _]; reflexivity).
  destruct (IH script (tick + 1) _ Hs') as (Hs'' & Hrest & Hpk' & Hout').
  split; [exact Hs''|]. split; [exact Hrest|]. split; congruence.
Qed.

(** C4 fails on the code.  Feed the loop the counter sequence
    0, 0, 5, 5, 5, 9, one step per tick: the first read returns 0, which
    equals [last_rpc_val], so the program enters the inner wait and never
    reads the counter again.  At every tick the buckets sum to 0, not 9;
    from the 19th step on the program is in the inner wait with the rest of
    the sequence unread and no report made. *)
Theorem scripted_deltas_never_sum (n : nat) :
  sum_buckets (fst (scripted [0; 0; 5; 5; 5; 9] 0 n init)) = 0 /\
  (let '(s, rest) := scripted [0; 0; 5; 5; 5; 9] 0 (19 + n) init in
   (at_pc s = L186 \/ at_pc s = L188) /\ rest = [0; 5; 5; 5; 9] /\
   sum_buckets s = 0 /\ output s = None).
Proof.
  assert (Hlate : forall m,
    let '(s, rest) := scripted [0; 0; 5; 5; 5; 9] 0 (19 + m) init in
    (at_pc s = L186 \/ at_pc s = L188) /\ rest = [0; 5; 5; 5; 9] /\
    sum_buckets s = 0 /\ output s = None).
  { intros m. rewrite scripted_add.
    destruct (scripted _ 0 19 init) as [s1 rest1] eqn:E1.
    assert (Hs1 : waiting s1 /\ rest1 = [0; 5; 5; 5; 9] /\
                  sum_buckets s1 = 0 /\ output s1 = None).
    { vm_compute in E1. injection E1 as <- <-. vm_compute. auto 10. }
    destruct Hs1 as (Hw & -> & Hsum & Hout).
    destruct (scripted_waiting m [0; 5; 5; 5; 9] (0 + Z.of_nat 19) s1 Hw)
      as ((Hpc & _) & Hrest & Hpk & Hout').
    destruct (scripted _ _ m s1) as [s2 rest2]. cbn [fst snd] in *.
    unfold sum_buckets in *. rewrite Hpk, Hrest, Hout'. auto. }
  split; [|apply Hlate].
  destruct (Nat.lt_ge_cases n 19) as [Hlt|Hge].
  - do 19 (destruct n as [|n]; [vm_compute; reflexivity|]). lia.
  - specialize (Hlate (n - 19)%nat).
    replace (19 + (n - 19))%nat with n in Hlate by lia.
    destruct (scripted _ 0 n init) as [s rest]. apply Hlate.
Qed.

(* ------------------------------------------------------------------ *)
(** ** The report *)

(** The report has a line for [i] only if [i < current_second]. *)
Lemma report_lines_below_current s i n :
  In (i, n) (per_second (final_report s)) -> 0 <= i < current_second s.
Proof.
  cbn. rewrite in_map_iff. intros (k & [= <- _] & Hk).
  apply in_seq in Hk. lia.
Qed.

(** 600 packets give an average of exactly 10. *)
Lemma average_of_600 s :
  ret_rpc_val s = 600 -> average (final_report s) = float_of_Z 10.
Proof. cbn. intros ->. reflexivity. Qed.

(** C6 fails on the code.  One progress observation, 7 packets at second
    5 of the minute; the window then elapses and [main] returns
    [EXIT_SUCCESS].  Bucket 5 holds 7 and is the highest, and only, bucket
    touched, yet the report has lines for seconds 0-4 only: the loop at line
    210 stops before [current_second]. *)
Theorem report_omits_current_second :
  let s := run init (first_read 7 ++
             [answer true; Resp (Response true 0 5 5);
              Resp (Response true 0 60 0); answer true]) in
  at_pc s = Exited EXIT_SUCCESS /\
  current_second s = 5 /\ packets_per_second s !! 5%nat = Some 7 /\
  option_map total (output s) = Some 7 /\
  option_map per_second (output s) = Some [(0, 0); (1, 0); (2, 0); (3, 0); (4, 0)].
Proof. vm_compute. auto 10. Qed.

(* ================================================================== *)
(** * Further properties of [main] *)

(** ** The order of the startup calls *)

Lemma startup_part_snoc tr f b :
  startup_part (tr ++ [(f, b)]) =
  startup_part tr ++ (if is_startup f then [(f, b)] else []).
Proof.
  unfold startup_part. rewrite List.filter_app. cbn.
  destruct (is_startup f); reflexivity.
Qed.

#[local] Arguments startup_part : simpl never.

#[local] Arguments attempts : simpl never.

Ltac startup_call :=
  cbn; rewrite ?startup_part_snoc; cbn [is_startup existsb startup_fns];
  decide_all; cbn [orb app];
  rewrite ?app_nil_r;
  lazymatch goal with
  | Hs : startup_part _ = attempts ?k false |- _ = _ => rewrite Hs; reflexivity
  | Hs : startup_part _ = attempts ?k false |- exists _ _, _ =>
      first [ exists k, true; split;
              [rewrite Hs; reflexivity | solve [intros H; discriminate H]]
            | exists k, false; split;
              [rewrite Hs; reflexivity
              | solve [intros H; try discriminate H; split; reflexivity]] ]
  end.

Lemma startup_inv_step s i : startup_inv s -> startup_inv (step s i).
Proof.
  unfold startup_inv. intros Hs.
  destruct (decide (at_pc s = L193)) as [E|NE].
  { rewrite E in Hs. destruct i as [r|sg]; cbn [step].
    - unfold advance. rewrite E. destruct (bucket_update _ _) as [s'|] eqn:Hu.
      + apply bucket_update_frame in Hu as (cs' & a' & ->). exact Hs.
      + exists 13%nat, false. split; [exact Hs | intros H; discriminate H].
    - unfold deliver.
      assert (running s = true) as -> by (unfold running; rewrite E; reflexivity).
      destruct (handled sg s); cbn; rewrite ?E; cbn; [exact Hs|].
      exists 13%nat, false. split; [exact Hs | intros H; discriminate H]. }
  destruct s as [p fq oi ot rv lv pk cs st tr out], i as [[ok v t sec]|sg];
    cbn [at_pc calls step] in *.
  - destruct p; try congruence; cbn [startup_count] in Hs; try exact Hs.
    all: try (destruct ok; startup_call).
    all: try startup_call.
    + unfold advance. cbn [at_pc]. destruct (outer_guard _ _); exact Hs.
    + unfold advance. cbn [at_pc]. destruct (inner_guard _); exact Hs.
  - unfold deliver.
    destruct p; cbn [running at_pc startup_count] in *; try exact Hs;
      destruct (handled _ _); try exact Hs; startup_call.
Qed.

(** X1.  In every execution the startup functions of lines 83-159 are
    called in the order of the source, each at most once, each only after
    all the earlier ones succeeded, and none after a failed one.  While
    [main] is at a program point of lines 79-204 the calls made are exactly
    the ones before that point, all successful; and [main] returns
    [EXIT_SUCCESS] only after all thirteen succeeded. *)
Theorem startup_calls_in_order (ins : list input) :
  exists k failed,
    startup_part (calls (run init ins)) = attempts k failed /\
    (forall k', startup_count (at_pc (run init ins)) = Some k' ->
       k = k' /\ failed = false) /\
    (at_pc (run init ins) = Exited EXIT_SUCCESS -> k = 13%nat /\ failed = false).
Proof.
  assert (H : startup_inv (run init ins))
    by (apply run_invariant; [reflexivity | apply startup_inv_step]).
  unfold startup_inv in H.
  destruct (startup_count (at_pc (run init ins))) as [k|] eqn:E.
  - exists k, false. split; [exact H|]. split.
    + intros k' [= <-]. auto.
    + intros Hpc. rewrite Hpc in E. discriminate E.
  - destruct H as (k & failed & Hk & Hf). exists k, failed.
    split; [exact Hk|]. split; [intros k' Hk'; discriminate Hk' | exact Hf].
Qed.

Lemma startup_calls_in_order_witness :
  exists k failed,
    startup_part (calls (run init (startup_failing 8))) = attempts k failed /\
    k = 8%nat /\ failed = true.
Proof.
  destruct (startup_calls_in_order (startup_failing 8)) as (k & failed & Hk & _ & _).
  exists k, failed. split; [exact Hk|].
  vm_compute in Hk. destruct failed.
  - do 14 (destruct k as [|k]; [try discriminate Hk; auto|]).
    vm_compute in Hk. discriminate Hk.
  - do 14 (destruct k as [|k]; [discriminate Hk|]).
    vm_compute in Hk. discriminate Hk.
Defined.

(* ------------------------------------------------------------------ *)
(** ** Release calls *)

Lemma running_progress s : running s = true -> exists k, progress (at_pc s) = Some k.
Proof. unfold running. destruct (at_pc s); try discriminate; cbn; eauto. Qed.

(** A step of the machine that ends the process without a return from
    [main] makes no call. *)
Lemma abnormal_end_keeps_calls s i :
  running (step s i) = false -> (forall c, at_pc (step s i) <> Exited c) ->
  calls (step s i) = calls s.
Proof.
  destruct (decide (at_pc s = L193)) as [E|NE].
  { destruct i as [r|sg]; cbn [step].
    - unfold advance. rewrite E. destruct (bucket_update _ _) as [s'|] eqn:Hu.
      + apply bucket_update_frame in Hu as (cs' & a' & ->). reflexivity.
      + reflexivity.
    - unfold deliver. intros _ _.
      destruct (running s), (handled sg s); reflexivity. }
  destruct s as [p fq oi ot rv lv pk cs st tr out], i as [[ok v t sec]|sg];
    cbn [step at_pc] in *.
  - destruct p; try congruence; unfold advance; cbn [at_pc];
      try (intros; reflexivity); try (intros H; discriminate H).
    all: try (destruct ok; cbn; intros H Hc;
              first [discriminate H | exfalso; eapply Hc; reflexivity]).
    all: try (destruct (outer_guard _ _); intros; reflexivity).
    all: try (destruct (inner_guard _); intros; reflexivity).
    all: try (cbn; intros _ Hc; exfalso; eapply Hc; reflexivity).
  - destruct p, sg, oi, ot; intros; reflexivity.
Qed.

(** In the step machine the release calls are made in the step in which
    [main] returns. *)
Lemma released_only_at_return ins :
  released (calls (run init ins)) = [] \/ exists c, at_pc (run init ins) = Exited c.
Proof.
  induction ins as [|i ins IH] using rev_ind; [left; reflexivity|].
  rewrite run_snoc. set (s := run init ins) in *.
  destruct (running (step s i)) eqn:Hrun'.
  - left. apply running_progress in Hrun' as [k Hk].
    pose proof (main_inv_step s i (main_inv_run ins)) as [Hp _ _ _ _ _].
    apply (Hp k Hk).
  - destruct (at_pc (step s i)) eqn:Hpc; try (right; eauto; fail);
      try (unfold running in Hrun'; rewrite Hpc in Hrun'; discriminate Hrun').
    all: destruct (running s) eqn:Hrun;
      [ left; rewrite abnormal_end_keeps_calls
          by (try exact Hrun'; intros c; rewrite Hpc; discriminate);
        apply running_progress in Hrun as [k Hk];
        pose proof (main_inv_run ins) as [Hp _ _ _ _ _]; apply (Hp k Hk)
      | rewrite (ended_step s i Hrun) in *; destruct IH as [IH|[c IH]];
        [left; exact IH | fold s in IH; congruence] ].
Qed.

(** X3.  No resource domain is ever released twice, and a release is made
    only on a path on which a call whose status [main] checks has failed, or
    on the path that returns [EXIT_SUCCESS]. *)
Theorem no_double_release (ins : list input) :
  List.NoDup (released (calls (run init ins))) /\
  (released (calls (run init ins)) = [] \/
   any_failed (calls (run init ins)) = true \/
   at_pc (run init ins) = Exited EXIT_SUCCESS).
Proof.
  pose proof (main_inv_run ins) as [_ _ _ _ _ He].
  destruct (released_only_at_return ins) as [Hnil|[c Hc]].
  - rewrite Hnil. split; [constructor | left; reflexivity].
  - destruct (He c Hc) as (Hrel & [k Hk] & Hcode). split.
    + rewrite Hrel, Hk.
      do 5 (destruct k as [|k];
            [cbn; repeat constructor; cbn; intuition discriminate|]).
      cbn. repeat constructor; cbn; intuition discriminate.
    + destruct Hcode as [(-> & _)|[_ Hf]]; auto.
Qed.

(* ------------------------------------------------------------------ *)
(** ** The report *)

Lemma report_inv_step s i :
  (output s = None /\ at_pc s <> Exited EXIT_SUCCESS) \/
  (at_pc s = Exited EXIT_SUCCESS /\ output s = Some (final_report s)) ->
  (output (step s i) = None /\ at_pc (step s i) <> Exited EXIT_SUCCESS) \/
  (at_pc (step s i) = Exited EXIT_SUCCESS /\
   output (step s i) = Some (final_report (step s i))).
Proof.
  intros Hs. destruct (running s) eqn:Hrun;
    [|rewrite ended_step by exact Hrun; exact Hs].
  destruct Hs as [[Hout Hne]|[Hpc _]];
    [|unfold running in Hrun; rewrite Hpc in Hrun; discriminate Hrun].
  destruct (decide (at_pc s = L193)) as [E|NE].
  { left. destruct i as [r|sg]; cbn [step].
    - unfold advance. rewrite E. destruct (bucket_update _ _) as [s'|] eqn:Hu.
      + apply bucket_update_frame in Hu as (cs' & a' & ->). cbn.
        split; [exact Hout|discriminate].
      + cbn. split; [exact Hout|discriminate].
    - unfold deliver. rewrite Hrun.
      destruct (handled sg s); cbn; rewrite ?E; split; auto; discriminate. }
  destruct s as [p fq oi ot rv lv pk cs st tr out], i as [[ok v t sec]|sg];
    cbn [step output at_pc] in *; subst out.
  - destruct p; try congruence; try discriminate Hrun; unfold advance; cbn [at_pc].
    all: try (left; split; [reflexivity|discriminate]).
    all: try (destruct ok; left; (split; [reflexivity|discriminate])).
    all: try (destruct (outer_guard _ _); left; (split; [reflexivity|discriminate])).
    all: try (destruct (inner_guard _); left; (split; [reflexivity|discriminate])).
    right. split; reflexivity.
  - left. unfold deliver. rewrite Hrun.
    destruct (handled _ _); cbn; split; auto; discriminate.
Qed.

Lemma report_inv ins :
  (output (run init ins) = None /\ at_pc (run init ins) <> Exited EXIT_SUCCESS) \/
  (at_pc (run init ins) = Exited EXIT_SUCCESS /\
   output (run init ins) = Some (final_report (run init ins))).
Proof.
  apply (run_invariant (fun s =>
    (output s = None /\ at_pc s <> Exited EXIT_SUCCESS) \/
    (at_pc s = Exited EXIT_SUCCESS /\ output s = Some (final_report s)))).
  - left. split; [reflexivity|discriminate].
  - apply report_inv_step.
Qed.

(** X4.  A report is produced exactly when [main] returns [EXIT_SUCCESS],
    and it is then the report of the final values of the counter and the
    buckets; an execution that returns [EXIT_FAILURE] - a failed counter
    read included - that faults or that is killed produces no report. *)
Theorem report_exactly_on_success (ins : list input) :
  (output (run init ins) = None /\ at_pc (run init ins) <> Exited EXIT_SUCCESS) \/
  (at_pc (run init ins) = Exited EXIT_SUCCESS /\
   output (run init ins) = Some (final_report (run init ins)) /\
   option_map total (output (run init ins)) = Some (ret_rpc_val (run init ins))).
Proof.
  destruct (report_inv ins) as [H|[Hpc Hout]]; [left; exact H|right].
  split; [exact Hpc|]. split; [exact Hout|]. rewrite Hout. reflexivity.
Qed.

Lemma report_exactly_on_success_witness :
  (output (run init (first_read 7 ++ [answer true; answer false])) = None /\
   at_pc (run init (first_read 7 ++ [answer true; answer false])) <>
     Exited EXIT_SUCCESS) \/
  (at_pc (run init (first_read 7 ++ [answer true; answer false])) =
     Exited EXIT_SUCCESS /\
   output (run init (first_read 7 ++ [answer true; answer false])) =
     Some (final_report (run init (first_read 7 ++ [answer true; answer false]))) /\
   option_map total (output (run init (first_read 7 ++ [answer true; answer false]))) =
     Some (ret_rpc_val (run init (first_read 7 ++ [answer true; answer false])))).
Proof. apply (report_exactly_on_success (first_read 7 ++ [answer true; answer false])). Defined.

(* ------------------------------------------------------------------ *)
(** ** Array indices *)






(** The fault is entered from the bucket update only. *)
Lemma fault_step s i :
  at_pc (step s i) = Fault ->
  at_pc s = Fault \/
  exists r, i = Resp r /\ at_pc s = L193 /\ bucket_update (tm_sec r) s = None.
Proof.
  destruct (decide (at_pc s = L193)) as [E|NE].
  { destruct i as [r|sg]; cbn [step].
    - unfold advance. rewrite E. destruct (bucket_update _ _) as [s'|] eqn:Hu.
      + intros H. discriminate H.
      + intros _. right. eauto.
    - unfold deliver. destruct (running s), (handled sg s); cbn; rewrite ?E;
        intros H; discriminate H. }
  destruct s as [p fq oi ot rv lv pk cs st tr out], i as [[ok v t sec]|sg];
    cbn [step at_pc] in *.
  - destruct p; try congruence; unfold advance; cbn [at_pc]; auto;
      try (intros H; discriminate H);
      try (destruct ok; intros H; discriminate H).
    + destruct (outer_guard _ _); intros H; discriminate H.
    + destruct (inner_guard _); intros H; discriminate H.
  - destruct p, sg, oi, ot; cbn; auto; intros H; discriminate H.
Qed.

(** X7.  If [localtime] never reports a [tm_sec] outside 0-59, no
    execution stores outside [packets_per_second]. *)
Theorem no_fault_without_leap_second (ins : list input) :
  (forall r, In (Resp r) ins -> 0 <= tm_sec r < SIMULATION_TIME) ->
  at_pc (run init ins) <> Fault.
Proof.
  induction ins as [|i ins IH] using rev_ind; intros Hr; [discriminate|].
  rewrite run_snoc. intros Hf.
  apply fault_step in Hf as [Hf|(r & -> & Hpc & Hu)].
  - apply IH; [|exact Hf]. intros r Hin. apply Hr, in_app_iff. auto.
  - destruct (bucket_update_in_range (tm_sec r) (run init ins)) as (a & Ha & _).
    + rewrite buckets_length. apply Hr, in_app_iff. right. left. reflexivity.
    + congruence.
Qed.

Lemma no_fault_without_leap_second_witness :
  at_pc (run init (first_read 7 ++ [answer true; Resp (Response true 0 5 59)])) <>
  Fault.
Proof.
  apply no_fault_without_leap_second.
  intros r Hin. vm_compute in Hin.
  repeat (destruct Hin as [[= <-]|Hin];
          [unfold SIMULATION_TIME; cbn [tm_sec]; lia|]).
  destruct Hin.
Defined.

(* ------------------------------------------------------------------ *)
(** ** [doca_argp_destroy] *)

Lemma succeeded_snoc f tr g b :
  succeeded f (tr ++ [(g, b)]) = succeeded f tr || (bool_decide (g = f) && b).
Proof.
  rewrite succeeded_app. unfold succeeded at 2. cbn. rewrite orb_false_r.
  reflexivity.
Qed.

Lemma argp_inv_step s i : argp_inv s -> argp_inv (step s i).
Proof.
  unfold argp_inv. intros [H1 H2].
  destruct (running s) eqn:Hrun;
    [|rewrite ended_step by exact Hrun; split; assumption].
  destruct (decide (at_pc s = L193)) as [E|NE].
  { rewrite E in *. rewrite bool_decide_eq_false_2 in H1 by discriminate.
    destruct i as [r|sg]; cbn [step].
    - unfold advance. rewrite E. destruct (bucket_update _ _) as [s'|] eqn:Hu.
      + apply bucket_update_frame in Hu as (cs' & a' & ->). cbn. auto.
      + cbn. auto.
    - unfold deliver. rewrite Hrun.
      destruct (handled sg s); cbn; rewrite ?E; cbn; auto. }
  destruct s as [p fq oi ot rv lv pk cs st tr out], i as [[ok v t sec]|sg];
    cbn [step at_pc calls] in *.
  - destruct p; try congruence; try discriminate Hrun;
      rewrite bool_decide_eq_false_2 in H1 by discriminate;
      cbn [andb startup_count] in H1, H2; unfold advance; cbn [at_pc].
    all: try (destruct (outer_guard _ _)).
    all: try (destruct (inner_guard _)).
    all: try destruct ok.
    all: cbn; rewrite ?count_calls_snoc, ?succeeded_snoc; decide_all;
      rewrite ?H1, ?H2; cbn; auto.
  - unfold deliver. rewrite Hrun.
    destruct p; try discriminate Hrun;
      rewrite bool_decide_eq_false_2 in H1 by discriminate;
      cbn [andb startup_count] in H1, H2;
      destruct (handled _ _); cbn; auto.
Qed.

(** X2.  When [main] returns, [doca_argp_destroy] has been called exactly
    once if the code is [EXIT_FAILURE] and [doca_argp_init] had succeeded,
    and not at all otherwise - in particular not on the path that returns
    [EXIT_SUCCESS].  In every execution it is called at most once, only
    after [doca_argp_init] succeeded and a checked call failed, and never
    while [main] is at a program point of lines 79-204. *)
Theorem argp_destroy_accounting (ins : list input) :
  (forall c, at_pc (run init ins) = Exited c ->
     count_calls doca_argp_destroy (calls (run init ins)) =
     (if bool_decide (c = EXIT_FAILURE) &&
         succeeded doca_argp_init (calls (run init ins))
      then 1 else 0)%nat) /\
  (count_calls doca_argp_destroy (calls (run init ins)) <= 1)%nat /\
  (count_calls doca_argp_destroy (calls (run init ins)) = 1%nat ->
     any_failed (calls (run init ins)) = true /\
     succeeded doca_argp_init (calls (run init ins)) = true) /\
  (forall k, startup_count (at_pc (run init ins)) = Some k ->
     count_calls doca_argp_destroy (calls (run init ins)) = 0%nat).
Proof.
  assert (H : argp_inv (run init ins))
    by (apply (run_invariant argp_inv); [split; reflexivity | apply argp_inv_step]).
  destruct H as [Hcount _].
  pose proof (main_inv_run ins) as [_ _ _ _ _ He].
  set (s := run init ins) in *. split; [|split; [|split]].
  - intros c Hc. rewrite Hcount, Hc.
    destruct (decide (c = EXIT_FAILURE)) as [->|Hne].
    + rewrite !bool_decide_eq_true_2 by reflexivity. reflexivity.
    + rewrite !bool_decide_eq_false_2 by congruence. reflexivity.
  - rewrite Hcount. destruct (_ && _); lia.
  - rewrite Hcount.
    destruct (bool_decide (at_pc s = Exited EXIT_FAILURE)) eqn:Hb;
      [|cbn; discriminate].
    apply bool_decide_eq_true_1 in Hb.
    destruct (succeeded doca_argp_init (calls s)); [|cbn; discriminate].
    intros _. destruct (He _ Hb) as (_ & _ & [(Hc & _)|[_ Hf]]);
      [discriminate Hc | auto].
  - intros k Hk. rewrite Hcount.
    rewrite bool_decide_eq_false_2; [reflexivity|].
    intros E. rewrite E in Hk. discriminate Hk.
Qed.

Lemma argp_destroy_accounting_witness :
  count_calls doca_argp_destroy (calls (run init (startup_failing 8))) = 1%nat /\
  any_failed (calls (run init (startup_failing 8))) = true /\
  succeeded doca_argp_init (calls (run init (startup_failing 8))) = true /\
  count_calls doca_argp_destroy (calls (run init (repeat (answer true) 9))) = 0%nat.
Proof.
  destruct (argp_destroy_accounting (startup_failing 8)) as (H1 & _ & H3 & _).
  destruct (argp_destroy_accounting (repeat (answer true) 9)) as (_ & _ & _ & H4).
  split; [exact (H1 EXIT_FAILURE eq_refl)|].
  split; [apply H3; exact (H1 EXIT_FAILURE eq_refl)|].
  split; [apply H3; exact (H1 EXIT_FAILURE eq_refl)|].
  apply (H4 8%nat). reflexivity.
Defined.

(* ------------------------------------------------------------------ *)
(** ** One iteration of the telemetry loop *)

(** X6.  An iteration in which the counter has changed: from the loop
    condition with the flag clear and the window open, a successful read of a
    value different from [last_rpc_val], and a valid [tm_sec], bring the
    program back to the loop condition in four steps, without any [sleep];
    the only call made is the counter read, both [ret_rpc_val] and
    [last_rpc_val] are the value read, and the bucket of the second holds the
    difference to the previous value as an [int]. *)
Theorem iteration_with_progress (s : state) (r1 r2 r3 r4 : response) :
  at_pc s = L177 ->
  force_quit s = false ->
  clock r1 - start_time s < SIMULATION_TIME ->
  status_ok r2 = true ->
  wrap64 (rpc_val r2) <> last_rpc_val s ->
  0 <= tm_sec r4 < Z.of_nat (length (packets_per_second s)) ->
  let s' := run s [Resp r1; Resp r2; Resp r3; Resp r4] in
  at_pc s' = L177 /\ force_quit s' = false /\
  calls s' = calls s ++ [(call_get_processed_packets_num, true)] /\
  ret_rpc_val s' = wrap64 (rpc_val r2) /\
  last_rpc_val s' = wrap64 (rpc_val r2) /\
  current_second s' = tm_sec r4 /\
  packets_per_second s' !! Z.to_nat (tm_sec r4) =
    Some (int_of_uint64 (sub64 (wrap64 (rpc_val r2)) (last_rpc_val s))).
Proof.
  intros Hpc Hfq Hclock Hok Hnew Hsec s'. subst s'.
  change (run s [Resp r1; Resp r2; Resp r3; Resp r4])
    with (advance r4 (advance r3 (advance r2 (advance r1 s)))).
  assert (E1 : advance r1 s = goto L179 s).
  { unfold advance. rewrite Hpc. unfold outer_guard. rewrite Hfq.
    apply Z.ltb_lt in Hclock. rewrite Hclock. reflexivity. }
  rewrite E1. clear E1.
  set (s2 := goto L186 (called call_get_processed_packets_num true
               (set_ret_rpc_val (wrap64 (rpc_val r2)) (goto L179 s)))).
  assert (E2 : advance r2 (goto L179 s) = s2).
  { unfold advance, fallible. cbn [at_pc goto]. rewrite Hok. reflexivity. }
  rewrite E2. clear E2.
  assert (E3 : advance r3 s2 = goto L193 s2).
  { unfold advance, inner_guard. cbn. rewrite Hfq.
    apply not_eq_sym, Z.eqb_neq in Hnew. rewrite Hnew. reflexivity. }
  rewrite E3. clear E3.
  destruct (bucket_update_in_range (tm_sec r4) (goto L193 s2))
    as (a & Hu & _ & Hat & _); [exact Hsec|].
  unfold advance. cbn [at_pc goto]. rewrite Hu. cbn in *. auto 10.
Qed.

Lemma iteration_with_progress_witness :
  let s := run init (startup_ok ++ arm 0) in
  let s' := run s [Resp (Response true 0 1 0); Resp (Response true 7 1 0);
                   answer true; Resp (Response true 0 5 5)] in
  at_pc s' = L177 /\ force_quit s' = false /\
  calls s' = calls s ++ [(call_get_processed_packets_num, true)] /\
  ret_rpc_val s' = 7 /\ last_rpc_val s' = 7 /\ current_second s' = 5 /\
  packets_per_second s' !! 5%nat = Some 7.
Proof.
  intros s s'.
  apply (iteration_with_progress s (Response true 0 1 0) (Response true 7 1 0)
           (Response true 0 0 0) (Response true 0 5 5));
    try reflexivity; vm_compute; try split; congruence.
Defined.

(* ------------------------------------------------------------------ *)
(** ** Cancellation before the first counter read *)

Lemma before_first_read ins :
  count_calls call_get_processed_packets_num (calls (run init ins)) = 0%nat ->
  ret_rpc_val (run init ins) = 0 /\ last_rpc_val (run init ins) = 0 /\
  current_second (run init ins) = 0 /\
  at_pc (run init ins) <> L186 /\ at_pc (run init ins) <> L188 /\
  at_pc (run init ins) <> L193.
Proof.
  apply (run_invariant (fun s =>
    count_calls call_get_processed_packets_num (calls s) = 0%nat ->
    ret_rpc_val s = 0 /\ last_rpc_val s = 0 /\ current_second s = 0 /\
    at_pc s <> L186 /\ at_pc s <> L188 /\ at_pc s <> L193)).
  { intros _. repeat split; discriminate. }
  clear ins. intros s i Hs.
  destruct (running s) eqn:Hrun; [|rewrite ended_step by exact Hrun; exact Hs].
  destruct (decide (at_pc s = L193)) as [E|NE].
  { destruct i as [r|sg]; cbn [step].
    - unfold advance. rewrite E. destruct (bucket_update _ _) as [s'|] eqn:Hu.
      + apply bucket_update_frame in Hu as (cs' & a' & ->). cbn. intros H0.
        destruct (Hs H0) as (_ & _ & _ & _ & _ & Hne). congruence.
      + cbn. intros H0. destruct (Hs H0) as (_ & _ & _ & _ & _ & Hne). congruence.
    - unfold deliver. rewrite Hrun. destruct (handled sg s); cbn; intros H0;
        destruct (Hs H0) as (_ & _ & _ & _ & _ & Hne); congruence. }
  destruct s as [p fq oi ot rv lv pk cs st tr out], i as [[ok v t sec]|sg];
    cbn [step at_pc calls ret_rpc_val last_rpc_val current_second] in *.
  - destruct p; try congruence; try discriminate Hrun; unfold advance; cbn [at_pc].
    all: try (destruct (outer_guard _ _)).
    all: try (destruct (inner_guard _)).
    all: try destruct ok.
    all: cbn; rewrite ?count_calls_snoc; decide_all; intros H0;
      try (exfalso; lia);
      (destruct Hs as (? & ? & ? & ? & ? & ?); [lia|]);
      try congruence; repeat split; try assumption; discriminate.
  - unfold deliver. rewrite Hrun.
    destruct (handled _ _); cbn; intros H0;
      (destruct Hs as (? & ? & ? & ? & ? & ?); [exact H0|]);
      repeat split; try assumption; destruct p; try congruence; discriminate.
Qed.

(** X8.  If [main] returns [EXIT_SUCCESS] without having read the counter
    - the flag was set, or the window had elapsed, before the first pass
    through the loop - the report shows a total of 0, an average of 0 and no
    per-second line. *)
Theorem report_without_read (ins : list input) :
  count_calls call_get_processed_packets_num (calls (run init ins)) = 0%nat ->
  at_pc (run init ins) = Exited EXIT_SUCCESS ->
  output (run init ins) =
    Some {| total := 0; average := S754_zero false; per_second := [] |}.
Proof.
  intros H0 Hpc. destruct (before_first_read ins H0) as (Hr & _ & Hcs & _).
  destruct (report_inv ins) as [[_ Hne]|[_ ->]]; [congruence|].
  unfold final_report. rewrite Hr, Hcs. reflexivity.
Qed.

Lemma report_without_read_witness :
  output (run init (startup_ok ++ [answer true; Sig SIGINT] ++ repeat (answer true) 4)) =
    Some {| total := 0; average := S754_zero false; per_second := [] |}.
Proof. apply report_without_read; reflexivity. Defined.

(* ------------------------------------------------------------------ *)
(** ** Which signals are handled where *)

Lemma sigterm_installed_step s i : sigterm_inv s -> sigterm_inv (step s i).
Proof.
  unfold sigterm_inv. intros Hs.
  destruct (running s) eqn:Hrun;
    [|rewrite ended_step by exact Hrun; rewrite Hrun; discriminate].
  specialize (Hs eq_refl).
  destruct (decide (at_pc s = L193)) as [E|NE].
  { rewrite E in Hs. destruct i as [r|sg]; cbn [step].
    - unfold advance. rewrite E. destruct (bucket_update _ _) as [s'|] eqn:Hu.
      + apply bucket_update_frame in Hu as (cs' & a' & ->). cbn. auto.
      + cbn. discriminate.
    - unfold deliver. rewrite Hrun.
      destruct (handled sg s); cbn; rewrite ?E; cbn; auto; discriminate. }
  destruct s as [p fq oi ot rv lv pk cs st tr out], i as [[ok v t sec]|sg];
    cbn [step at_pc on_sigterm] in *.
  - destruct p; try congruence; try discriminate Hrun; cbn in Hs; subst ot;
      unfold advance; cbn [at_pc].
    all: try (destruct (outer_guard _ _)).
    all: try (destruct (inner_guard _)).
    all: try destruct ok.
    all: cbn; intros; try reflexivity; discriminate.
  - unfold deliver. rewrite Hrun.
    destruct (handled _ _); cbn; [intros _; exact Hs | discriminate].
Qed.

(** X9.  While [main] runs, which signals are handled depends on the
    program point alone: SIGINT from line 167 on, SIGTERM from line 173 on.
    The two handlers are installed one after the other, so at line 167 a
    SIGINT sets the flag and lets [main] go on, while a SIGTERM still ends
    the process by the default disposition. *)
Theorem handlers_by_program_point (ins : list input) :
  running (run init ins) = true ->
  handled SIGINT (run init ins) = negb (before_handlers (at_pc (run init ins))) /\
  handled SIGTERM (run init ins) = sigterm_handled_at (at_pc (run init ins)) /\
  (at_pc (run init ins) = L167 ->
   at_pc (step (run init ins) (Sig SIGTERM)) = Killed SIGTERM /\
   at_pc (step (run init ins) (Sig SIGINT)) = L167 /\
   force_quit (step (run init ins) (Sig SIGINT)) = true).
Proof.
  intros Hrun.
  assert (Hterm : sigterm_inv (run init ins))
    by (apply run_invariant; [intros _; reflexivity | apply sigterm_installed_step]).
  specialize (Hterm Hrun).
  pose proof (main_inv_run ins) as [_ Hb _ Ha _ _].
  set (s := run init ins) in *.
  assert (Hint : on_sigint s = negb (before_handlers (at_pc s))).
  { destruct (before_handlers (at_pc s)); cbn; auto. }
  split; [exact Hint|]. split; [exact Hterm|].
  intros Hpc. cbn. unfold deliver. rewrite Hrun. cbn [handled].
  rewrite Hterm, Hint, Hpc. cbn. auto.
Qed.

Lemma handlers_by_program_point_witness :
  let s := run init (startup_ok ++ [answer true]) in
  at_pc (step s (Sig SIGTERM)) = Killed SIGTERM /\
  at_pc (step s (Sig SIGINT)) = L167 /\
  force_quit (step s (Sig SIGINT)) = true.
Proof.
  intros s.
  apply (proj2 (proj2 (handlers_by_program_point (startup_ok ++ [answer true])
                         eq_refl))).
  reflexivity.
Defined.

(* ------------------------------------------------------------------ *)
(** ** The sum of the buckets *)

Lemma sum_replace_one (l l' : list Z) (k : nat) (x y : Z) :
  length l' = length l ->
  l !! k = Some x -> l' !! k = Some y ->
  (forall j, j <> k -> l' !! j = l !! j) ->
  fold_right Z.add 0 l' = fold_right Z.add 0 l - x + y.
Proof.
  revert l' k. induction l as [|a l IH]; intros l' k Hlen Hx Hy Hother.
  - discriminate Hx.
  - destruct l' as [|a' l']; [discriminate Hlen|].
    destruct k as [|k]; cbn in Hx, Hy.
    + injection Hx as ->. injection Hy as ->.
      assert (l' = l) as ->.
      { apply list_eq. intros j. apply (Hother (S j)). discriminate. }
      cbn. lia.
    + pose proof (Hother 0%nat ltac:(discriminate)) as H0. cbn in H0.
      injection H0 as ->. cbn.
      rewrite (IH l' k); [lia | cbn in Hlen; lia | exact Hx | exact Hy |].
      intros j Hj. apply (Hother (S j)). congruence.
Qed.

(** X10.  A bucket update with a valid [tm_sec] changes the sum of the
    buckets by the new delta minus what the bucket of that second held: the
    old content is dropped, not added to.  The buckets therefore add up to
    the counter only as long as no second of the minute is written twice. *)
Theorem bucket_sum_accounting (s : state) (r : response) (old : Z) :
  at_pc s = L193 ->
  packets_per_second s !! Z.to_nat (tm_sec r) = Some old ->
  0 <= tm_sec r ->
  sum_buckets (advance r s) =
  sum_buckets s - old + int_of_uint64 (sub64 (ret_rpc_val s) (last_rpc_val s)).
Proof.
  intros Hpc Hold Hpos.
  assert (Hsec : 0 <= tm_sec r < Z.of_nat (length (packets_per_second s))).
  { apply lookup_lt_Some in Hold. lia. }
  destruct (bucket_update_in_range (tm_sec r) s Hsec) as (a & Hu & Hlen & Hat & Hothers).
  unfold advance. rewrite Hpc, Hu. unfold sum_buckets. cbn.
  apply (sum_replace_one _ _ (Z.to_nat (tm_sec r))); assumption.
Qed.

Lemma bucket_sum_accounting_witness :
  let s := run init (first_read 7 ++
             [answer true; Resp (Response true 0 5 5);
              answer true; Resp (Response true 12 5 5); answer true]) in
  sum_buckets s = 7 /\
  sum_buckets (advance (Response true 0 5 5) s) = 7 - 7 + 5.
Proof.
  intros s. split; [reflexivity|].
  apply (bucket_sum_accounting s (Response true 0 5 5) 7);
    [reflexivity | reflexivity | discriminate].
Defined.

(* ================================================================== *)
(** * Exit codes and cancellation requests *)

(** Only a delivered, handled signal sets the flag. *)
Lemma flag_set_step s i :
  force_quit (step s i) = true ->
  force_quit s = true \/ exists sg, i = Sig sg /\ handled sg s = true.
Proof.
  destruct (decide (at_pc s = L193)) as [E|NE].
  { destruct i as [r|sg]; cbn [step].
    - unfold advance. rewrite E. destruct (bucket_update _ _) as [s'|] eqn:Hu.
      + apply bucket_update_frame in Hu as (cs' & a' & ->). cbn. auto.
      + cbn. auto.
    - unfold deliver. destruct (running s); [|auto].
      destruct (handled sg s) eqn:Hh; cbn; [intros _; right; eauto | auto]. }
  destruct s as [p fq oi ot rv lv pk cs st tr out], i as [[ok v t sec]|sg];
    cbn [step at_pc force_quit] in *.
  - destruct p; try congruence; unfold advance; cbn [at_pc];
      try solve [cbn; auto; intros H; discriminate H];
      try solve [destruct ok; cbn; auto].
    + destruct (outer_guard _ _); cbn; auto.
    + destruct (inner_guard _); cbn; auto.
  - unfold deliver. destruct (running _); [|auto].
    destruct (handled sg _) eqn:Hh; cbn; [intros _; right; eauto | auto].
Qed.

Lemma flag_needs_signal ins :
  force_quit (run init ins) = true ->
  exists pre sg post, ins = pre ++ Sig sg :: post /\ handled sg (run init pre) = true.
Proof.
  induction ins as [|i ins IH] using rev_ind; [discriminate|].
  rewrite run_snoc. intros H. apply flag_set_step in H as [H|(sg & -> & Hh)].
  - destruct (IH H) as (pre & sg & post & -> & Hh).
    exists pre, sg, (post ++ [i]). rewrite <- app_assoc. auto.
  - exists ins, sg, []. auto.
Qed.

(** A handler is installed only after all four stages were acquired. *)
Lemma handled_after_acquisition ins sg :
  handled sg (run init ins) = true ->
  acquired_stages (calls (run init ins)) = all_domains.
Proof.
  intros Hh. pose proof (main_inv_run ins) as [_ _ Hf _ Hi _].
  assert (Hoi : on_sigint (run init ins) = true).
  { destruct (on_sigint (run init ins)) eqn:E; [reflexivity|].
    destruct (Hf eq_refl) as [Hot _]. destruct sg; cbn in Hh; congruence. }
  specialize (Hi Hoi). use_reached Hi.
  unfold acquired_stages, stage_succeeded. cbn.
  repeat match goal with H : succeeded _ _ = _ |- _ => rewrite H end.
  reflexivity.
Qed.

Lemma cancelling_step s i :
  cancelling s ->
  (forall r, i = Resp r -> status_ok r = true /\ 0 <= tm_sec r < SIMULATION_TIME) ->
  cancelling (step s i) /\
  (steps_to_return (at_pc (step s i)) <=
     steps_to_return (at_pc s) - (if is_resp i then 1 else 0))%nat.
Proof.
  intros (Hfq & Hoi & Hot & Hlen & Hpc) Hgood. unfold cancelling.
  destruct i as [r|sg]; cbn [step is_resp].
  - destruct (Hgood r eq_refl) as [Hok Hsec]. clear Hgood.
    destruct Hpc as [Hpc|Hpc];
      [|unfold advance; rewrite Hpc; cbn; rewrite Hpc; auto 10].
    destruct (at_pc s) eqn:E; try discriminate Hpc; unfold advance; rewrite E.
    + cbn. auto 10.
    + destruct (guards_see_flag r s Hfq) as [-> _]. cbn. auto 10.
    + unfold fallible. cbn. rewrite Hok. cbn. auto 10.
    + destruct (guards_see_flag r s Hfq) as [_ ->]. cbn. auto 10.
    + cbn. auto 10.
    + destruct (bucket_update_in_range (tm_sec r) s) as (a & -> & Ha & _);
        [rewrite Hlen; exact Hsec|].
      cbn. rewrite Ha. auto 10.
    + cbn. auto 10.
  - unfold deliver. destruct (running s) eqn:Hrun; [|split; [auto 10|lia]].
    assert (handled sg s = true) as -> by (destruct sg; cbn; assumption).
    rewrite signal_handler_sets. cbn. split; [auto 10|lia].
Qed.

Lemma cancelling_run rest : forall s,
  cancelling s ->
  (forall r, In (Resp r) rest -> status_ok r = true /\ 0 <= tm_sec r < SIMULATION_TIME) ->
  cancelling (run s rest) /\
  (steps_to_return (at_pc (run s rest)) <=
     steps_to_return (at_pc s) - num_resp rest)%nat.
Proof.
  induction rest as [|i rest IH]; intros s Hs Hgood.
  - cbn. split; [exact Hs|lia].
  - rewrite run_cons.
    destruct (cancelling_step s i Hs) as [Hs' Hgo].
    { intros r ->. apply Hgood. left. reflexivity. }
    destruct (IH _ Hs') as [Hs'' Hgo'].
    { intros r Hin. apply Hgood. right. exact Hin. }
    split; [exact Hs''|].
    unfold num_resp in *. cbn [List.filter]. destruct (is_resp i); cbn [length]; lia.
Qed.

(** C2, as stated, fails.  All four stages are acquired, the launch
    succeeds, the loop is entered and a SIGINT is delivered, handled, while
    the program is about to read the counter; the read then fails.  A
    cancellation was requested after full acquisition, yet [main] returns
    [EXIT_FAILURE]. *)
Lemma cancellation_then_failed_read :
  (let pre := startup_ok ++ arm 0 ++ [answer true] in
   let s := run init (pre ++ [Sig SIGINT; answer false]) in
   at_pc (run init pre) = L179 /\
   acquired_stages (calls (run init pre)) = all_domains /\
   handled SIGINT (run init pre) = true /\
   force_quit s = true /\
   at_pc s = Exited EXIT_FAILURE) /\
  ~ (forall pre sg post c,
       handled sg (run init pre) = true ->
       at_pc (run init (pre ++ Sig sg :: post)) = Exited c ->
       c = EXIT_SUCCESS).
Proof.
  split; [vm_compute; auto 10|].
  intros H.
  specialize (H (startup_ok ++ arm 0 ++ [answer true]) SIGINT [answer false]
                EXIT_FAILURE eq_refl eq_refl).
  discriminate H.
Qed.

(** C2, amended.  When [main] returns, the code is [EXIT_SUCCESS] or
    [EXIT_FAILURE].  It is [EXIT_SUCCESS] exactly when the telemetry loop
    was left through its condition at line 177, because the window had
    elapsed or because the flag was found set there; all four stages are
    then acquired.  The flag is set only by a SIGINT or SIGTERM delivered
    with its handler installed, hence after full acquisition; and such a
    signal, delivered once both handlers are installed, makes [main] return
    [EXIT_SUCCESS] within five steps, provided every call still made
    succeeds and [tm_sec] stays valid.  The code is [EXIT_FAILURE] exactly
    when a call whose status [main] checks - an acquisition stage, the
    launch, a counter read - failed: such a failure makes [main] return
    [EXIT_FAILURE] in that very step, whether or not a cancellation had
    been requested. *)
Theorem exit_code_and_cancellation (ins : list input) :
  (forall c, at_pc (run init ins) = Exited c ->
     (c = EXIT_SUCCESS \/ c = EXIT_FAILURE) /\
     (c = EXIT_SUCCESS <->
        exists pre r post, ins = pre ++ Resp r :: post /\ leaves_loop pre r) /\
     (c = EXIT_SUCCESS -> acquired_stages (calls (run init ins)) = all_domains) /\
     (c = EXIT_FAILURE <-> any_failed (calls (run init ins)) = true)) /\
  (forall r, checks_status (at_pc (run init ins)) = true -> status_ok r = false ->
     at_pc (step (run init ins) (Resp r)) = Exited EXIT_FAILURE) /\
  (forall r r', leaves_loop ins r ->
     at_pc (run (run init ins) [Resp r; Resp r']) = Exited EXIT_SUCCESS) /\
  (force_quit (run init ins) = true ->
     exists pre sg post,
       ins = pre ++ Sig sg :: post /\
       handled sg (run init pre) = true /\
       acquired_stages (calls (run init pre)) = all_domains) /\
  (forall sg rest,
     sigterm_handled_at (at_pc (run init ins)) = true ->
     (forall r, In (Resp r) rest ->
        status_ok r = true /\ 0 <= tm_sec r < SIMULATION_TIME) ->
     (5 <= num_resp rest)%nat ->
     force_quit (step (run init ins) (Sig sg)) = true /\
     at_pc (run (run init ins) (Sig sg :: rest)) = Exited EXIT_SUCCESS).
Proof.
  destruct (exit_code_cases ins) as (HA & HB & HC).
  split; [exact HA|]. split; [exact HB|]. split; [exact HC|]. split.
  - intros Hfq. destruct (flag_needs_signal ins Hfq) as (pre & sg & post & -> & Hh).
    exists pre, sg, post. split; [reflexivity|]. split; [exact Hh|].
    exact (handled_after_acquisition pre sg Hh).
  - intros sg rest Hpc Hgood Hn.
    assert (Hterm : sigterm_inv (run init ins))
      by (apply run_invariant; [intros _; reflexivity | apply sigterm_installed_step]).
    pose proof (main_inv_run ins) as [_ _ _ Ha _ _].
    pose proof (buckets_length ins) as Hlen.
    set (s := run init ins) in *.
    assert (Hrun : running s = true)
      by (unfold running; destruct (at_pc s); try discriminate Hpc; reflexivity).
    assert (Hot : on_sigterm s = true) by (rewrite (Hterm Hrun); exact Hpc).
    assert (Hoi : on_sigint s = true).
    { apply Ha; [|exact Hrun]. destruct (at_pc s); try discriminate Hpc; reflexivity. }
    assert (Hs' : step s (Sig sg) = set_force_quit true s).
    { cbn. unfold deliver. rewrite Hrun.
      assert (handled sg s = true) as -> by (destruct sg; cbn; assumption).
      rewrite signal_handler_sets. reflexivity. }
    rewrite run_cons, Hs'. split; [reflexivity|].
    destruct (cancelling_run rest (set_force_quit true s)) as [(_ & _ & _ & _ & Hend) Hgo].
    { unfold cancelling. cbn. auto 10. }
    { exact Hgood. }
    destruct Hend as [Hend|Hend]; [|exact Hend].
    cbn [at_pc set_force_quit] in Hgo.
    assert (Hmax : (steps_to_return (at_pc s) <= 5)%nat)
      by (destruct (at_pc s); cbn; lia).
    destruct (at_pc (run (set_force_quit true s) rest));
      try discriminate Hend; cbn in Hgo; lia.
Qed.

Lemma exit_code_and_cancellation_witness :
  (let ins := startup_ok ++ arm 0 ++ [answer true; Sig SIGINT; answer false] in
   exists pre sg post,
     ins = pre ++ Sig sg :: post /\
     handled sg (run init pre) = true /\
     acquired_stages (calls (run init pre)) = all_domains) /\
  (let ins := first_read 7 in
   let rest := [answer true; Resp (Response true 0 5 5); answer true;
                Sig SIGINT; answer true; answer true] in
   force_quit (step (run init ins) (Sig SIGTERM)) = true /\
   at_pc (run (run init ins) (Sig SIGTERM :: rest)) = Exited EXIT_SUCCESS) /\
  at_pc (step (run init (startup_ok ++ arm 0 ++ [answer true; Sig SIGINT]))
              (answer false)) = Exited EXIT_FAILURE.
Proof.
  split; [|split].
  - apply (proj1 (proj2 (proj2 (proj2 (exit_code_and_cancellation
             (startup_ok ++ arm 0 ++ [answer true; Sig SIGINT; answer false])))))).
    reflexivity.
  - apply (proj2 (proj2 (proj2 (proj2 (exit_code_and_cancellation (first_read 7)))))).
    + reflexivity.
    + intros r Hin. cbn in Hin.
      repeat (destruct Hin as [Hin|Hin];
              [first [discriminate Hin
                     | injection Hin as <-; unfold SIMULATION_TIME; cbn;
                       split; [reflexivity|lia]]|]).
      destruct Hin.
    + cbn. lia.
  - apply (proj1 (proj2 (exit_code_and_cancellation
             (startup_ok ++ arm 0 ++ [answer true; Sig SIGINT])))); reflexivity.
Defined.

(* ------------------------------------------------------------------ *)
(** ** The bucket update when the delta does not fit the bucket *)

Lemma int_of_uint64_sub64_high a b :
  2 ^ 31 <= a - b < 2 ^ 32 -> int_of_uint64 (sub64 a b) = a - b - 2 ^ 32.
Proof.
  unfold int_of_uint64, sub64, wrap64, INT_MAX, INT_MOD, UINT64_MOD.
  intros H.
  rewrite Z.mod_mod_divide by (exists (2 ^ 32); reflexivity).
  change (2 ^ 32) with 4294967296 in *. change (2 ^ 31) with 2147483648 in *.
  rewrite Z.mod_small by lia.
  destruct (Z.leb_spec (a - b) (2147483648 - 1)); lia.
Qed.

(** C5 fails on the code.  At the bucket update, with [tm_sec] a valid
    index, a difference [ret_rpc_val - last_rpc_val] from 2^31 to 2^32 - 1
    does not fit the [int] bucket of line 70: the assignment of line 200
    leaves the difference minus 2^32 there, a negative number, not
    [count - last_count]. *)
Theorem bucket_truncates_large_delta (s : state) (r : response) :
  at_pc s = L193 ->
  0 <= tm_sec r < Z.of_nat (length (packets_per_second s)) ->
  2 ^ 31 <= ret_rpc_val s - last_rpc_val s < 2 ^ 32 ->
  packets_per_second (advance r s) !! Z.to_nat (tm_sec r) =
    Some (ret_rpc_val s - last_rpc_val s - 2 ^ 32) /\
  ret_rpc_val s - last_rpc_val s - 2 ^ 32 < 0 /\
  last_rpc_val (advance r s) = ret_rpc_val s.
Proof.
  intros Hpc Hsec Hdelta. unfold advance. rewrite Hpc.
  destruct (bucket_update_in_range (tm_sec r) s Hsec) as (a & -> & _ & Hat & _).
  cbn. rewrite int_of_uint64_sub64_high in Hat by exact Hdelta.
  split; [exact Hat|]. split; [lia|reflexivity].
Qed.

Lemma bucket_truncates_large_delta_witness :
  let s := run init (first_read (2 ^ 31) ++ [answer true]) in
  let r := Response true 0 5 5 in
  at_pc s = L193 /\
  ret_rpc_val s - last_rpc_val s = 2147483648 /\
  packets_per_second (advance r s) !! 5%nat = Some (- 2147483648) /\
  last_rpc_val (advance r s) = 2147483648.
Proof.
  intros s r. split; [reflexivity|]. split; [reflexivity|].
  destruct (bucket_truncates_large_delta s r) as (Hat & _ & Hlast);
    [reflexivity | vm_compute; split; [discriminate | reflexivity]
    | vm_compute; split; [discriminate | reflexivity] |].
  split; [exact Hat | exact Hlast].
Defined.
